(** * Book REST service: handlers of [controllers/book_controller.go]

    A shallow embedding of the five HTTP handlers ([GetBooks], [GetBook],
    [CreateBook], [UpdateBook], [DeleteBook]) together with what they call:
    [strconv.Atoi] on the path identifier, the [models.Book] record and its
    JSON rendering, and the [books] table that [database.InitDB] creates
    ([id INT AUTO_INCREMENT PRIMARY KEY], [title VARCHAR(255) NOT NULL],
    [author VARCHAR(255) NOT NULL], [YEAR INT NOT NULL]).

    The handlers run one SQL statement each against a healthy connection;
    statement failures that the schema itself causes (a value that does not
    fit its column, an exhausted key counter) are part of the model and reach
    the handlers' 500 branches.  Requests are handled one at a time. *)

From stdpp Require Import base numbers strings list gmap sorting.
From Stdlib Require Import ZArith Lia Ascii String Sorted DecimalString.

Open Scope Z_scope.
Set Warnings "-register-all".

(** ** Package [strconv] *)

Module strconv.

(** Go's [int] on the 64-bit targets the service is built for. *)
Definition min_int : Z := - 2 ^ 63.
Definition max_int : Z := 2 ^ 63 - 1.

Definition byte_of (c : ascii) : Z := Z.of_N (N_of_ascii c).

(** [ch -= '0'; if ch > 9 { syntax error }] *)
Definition digit (c : ascii) : option Z :=
  let b := byte_of c in
  if (48 <=? b) && (b <=? 57) then Some (b - 48) else None.

(** The digit loop [n = n*10 + int(ch)], started from [n]. *)
Fixpoint digits (n : Z) (s : string) : option Z :=
  match s with
  | EmptyString => Some n
  | String c s' =>
      match digit c with
      | Some d => digits (n * 10 + d) s'
      | None => None
      end
  end.

(** [strconv.Atoi]: an optional sign, then one or more decimal digits, and
    the value has to fit [int].  [None] stands for the returned error
    (syntax or range: the handlers only test [err != nil]). *)
Definition Atoi (s : string) : option Z :=
  match s with
  | EmptyString => None
  | String c rest =>
      let neg := Ascii.eqb c "-" in
      let body := if neg || Ascii.eqb c "+" then rest else s in
      match body with
      | EmptyString => None
      | _ =>
          match digits 0 body with
          | None => None
          | Some un =>
              let n := if neg then - un else un in
              if (min_int <=? n) && (n <=? max_int) then Some n else None
          end
      end
  end.

(** What the words "a decimal integer" mean, independently of the loop:
    a digit string read positionally. *)
Inductive digit_char : ascii -> Z -> Prop :=
| digit_char_intro (c : ascii) (d : Z) :
    0 <= d <= 9 -> byte_of c = 48 + d -> digit_char c d.

(** [digit_string s k v]: [s] is [k] digits long and denotes [v]. *)
Inductive digit_string : string -> nat -> Z -> Prop :=
| digit_string_one c d :
    digit_char c d -> digit_string (String c EmptyString) 1 d
| digit_string_cons c d s k v :
    digit_char c d -> digit_string s k v ->
    digit_string (String c s) (S k) (d * 10 ^ Z.of_nat k + v).

Inductive numeral : string -> Z -> Prop :=
| numeral_plain s k v : digit_string s k v -> numeral s v
| numeral_plus s k v : digit_string s k v -> numeral (String "+" s) v
| numeral_minus s k v : digit_string s k v -> numeral (String "-" s) (- v).

End strconv.

(** ** Package [models] *)

Module models.

(** [type Book struct { ID int; Title string; Author string; Year int }] *)
Record Book := { ID : Z; Title : string; Author : string; Year : Z }.

End models.

(** ** Package [encoding/json], as far as the handlers use it *)

Module json.

Inductive value :=
| Null
| Number (n : Z)
| Str (s : string)
| Array (elems : list value)
| Object (fields : list (string * value)).

(** A Go slice is either [nil] or a (possibly empty) sequence; the encoder
    writes [null] for the first and an array for the second. *)
Inductive slice (A : Type) :=
| nil_slice
| make_slice (elems : list A).
Arguments nil_slice {A}.
Arguments make_slice {A} elems.

Definition append {A} (s : slice A) (x : A) : slice A :=
  match s with
  | nil_slice => make_slice [x]
  | make_slice l => make_slice (l ++ [x])
  end.

(** Field names come from the struct tags [json:"id"], [json:"title"],
    [json:"author"], [json:"year"]. *)
Definition of_Book (b : models.Book) : value :=
  Object [("id"%string, Number (models.ID b));
          ("title"%string, Str (models.Title b));
          ("author"%string, Str (models.Author b));
          ("year"%string, Number (models.Year b))].

Definition of_Books (s : slice models.Book) : value :=
  match s with
  | nil_slice => Null
  | make_slice l => Array (map of_Book l)
  end.

(** [map[string]string{"message": m}] *)
Definition of_message (m : string) : value :=
  Object [("message"%string, Str m)].

(** Outcome of [json.NewDecoder(r.Body).Decode(&book)] on a zero [Book]:
    an error, or the record with the fields the body supplied (an [id] in
    the body lands in [ID]; absent fields stay zero). *)
Inductive Decoded :=
| DecodeError (msg : string)
| DecodeOk (b : models.Book).

End json.

(** ** Package [net/http] and the router's path variables *)

Module http.

Definition StatusOK : Z := 200.
Definition StatusCreated : Z := 201.
Definition StatusBadRequest : Z := 400.
Definition StatusNotFound : Z := 404.
Definition StatusInternalServerError : Z := 500.

Inductive Payload :=
| Json (v : json.value)
| Text (s : string).

(** What a handler has done to its [http.ResponseWriter]. *)
Record ResponseWriter := {
  content_type : string;
  code : option Z;
  written : list Payload
}.

Definition new_writer : ResponseWriter :=
  {| content_type := ""; code := None; written := [] |}.

(** [w.Header().Set("Content-Type", v)]: no effect once the header is out. *)
Definition SetContentType (v : string) (w : ResponseWriter) : ResponseWriter :=
  match code w with
  | Some _ => w
  | None => {| content_type := v; code := None; written := written w |}
  end.

(** [w.WriteHeader(c)]: only the first call counts. *)
Definition WriteHeader (c : Z) (w : ResponseWriter) : ResponseWriter :=
  match code w with
  | Some _ => w
  | None => {| content_type := content_type w; code := Some c; written := written w |}
  end.

(** [w.Write]: sends the header with 200 when none was sent before. *)
Definition Write (p : Payload) (w : ResponseWriter) : ResponseWriter :=
  let w' := WriteHeader StatusOK w in
  {| content_type := content_type w'; code := code w'; written := written w' ++ [p] |}.

Definition newline : string := String (ascii_of_nat 10) EmptyString.

(** [http.Error(w, msg, c)] *)
Definition Error (w : ResponseWriter) (msg : string) (c : Z) : ResponseWriter :=
  Write (Text (msg +:+ newline))
    (WriteHeader c (SetContentType "text/plain; charset=utf-8" w)).

(** [json.NewEncoder(w).Encode(v)] *)
Definition Encode (v : json.value) (w : ResponseWriter) : ResponseWriter :=
  Write (Json v) w.

(** The status line the client sees. *)
Definition status (w : ResponseWriter) : Z := default StatusOK (code w).

(** The parts of [*http.Request] the handlers read. *)
Record Request := {
  Vars : gmap string string;
  Body : json.Decoded
}.

(** [mux.Vars(r)["id"]]: the empty string when the route has no [{id}]. *)
Definition path_id (r : Request) : string := default ""%string (Vars r !! "id"%string).

End http.

(** ** The [books] table on the MySQL server behind [*sql.DB] *)

Module mysql.

(** Bounds of a signed [INT] column. *)
Definition INT_MIN : Z := - 2 ^ 31.
Definition INT_MAX : Z := 2 ^ 31 - 1.

(** Declared length of the two [VARCHAR(255)] columns, in characters. *)
Definition VARCHAR_LEN : nat := 255.

(** The non-key columns of one row; the key [id] indexes the table. *)
Record Row := { title : string; author : string; year : Z }.

#[global] Instance Row_eq_dec : EqDecision Row.
Proof. solve_decision. Defined.

Inductive Column := col_title | col_author | col_year.

(** Server errors a statement of the handlers can meet on this schema. *)
Inductive Error :=
| ER_DUP_ENTRY (key : Z)                    (* 1062 *)
| ER_WARN_DATA_OUT_OF_RANGE (c : Column)    (* 1264 *)
| ER_DATA_TOO_LONG (c : Column)             (* 1406 *)
| ER_AUTOINC_READ_FAILED.                   (* 1467 *)

Definition column_name (c : Column) : string :=
  match c with
  | col_title => "title"
  | col_author => "author"
  | col_year => "year"
  end.

(** A key in decimal, as the server prints it in a message. *)
Definition decimal (n : Z) : string := NilZero.string_of_int (Z.to_int n).

(** The driver's rendering of an error, as [%v] prints it: the number, the
    SQLSTATE and the server's message. *)
Definition Error_text (e : Error) : string :=
  match e with
  | ER_DUP_ENTRY key =>
      "Error 1062 (23000): Duplicate entry '" +:+ decimal key
        +:+ "' for key 'books.PRIMARY'"
  | ER_WARN_DATA_OUT_OF_RANGE c =>
      "Error 1264 (22003): Out of range value for column '" +:+ column_name c
        +:+ "' at row 1"
  | ER_DATA_TOO_LONG c =>
      "Error 1406 (22001): Data too long for column '" +:+ column_name c
        +:+ "' at row 1"
  | ER_AUTOINC_READ_FAILED =>
      "Error 1467 (HY000): Failed to read auto-increment value from storage engine"
  end.

(** The handle the handlers receive: two settings of the connection and the
    server, and the table.  [strict] is the server's strict SQL mode;
    [clientFoundRows] is the DSN flag of that name, which makes an UPDATE
    report matched rows instead of changed rows. *)
Record DB := {
  strict : bool;
  clientFoundRows : bool;
  books : gmap Z Row;
  auto_increment : Z
}.

Definition with_table (db : DB) (t : gmap Z Row) (next : Z) : DB :=
  {| strict := strict db; clientFoundRows := clientFoundRows db;
     books := t; auto_increment := next |}.

(** Strings travel as UTF-8; a character starts at every byte that is not
    a continuation byte [10xxxxxx]. *)
Definition is_continuation (c : ascii) : bool :=
  Z.land (strconv.byte_of c) 192 =? 128.

Fixpoint char_length (s : string) : nat :=
  match s with
  | EmptyString => O
  | String c s' =>
      if is_continuation c then char_length s' else S (char_length s')
  end.

(** The first [n] characters of [s], and what follows them. *)
Fixpoint char_take (n : nat) (s : string) : string :=
  match s with
  | EmptyString => EmptyString
  | String c s' =>
      if is_continuation c then String c (char_take n s')
      else match n with
           | O => EmptyString
           | S n' => String c (char_take n' s')
           end
  end.

Fixpoint char_drop (n : nat) (s : string) : string :=
  match s with
  | EmptyString => EmptyString
  | String c s' =>
      if is_continuation c then char_drop n s'
      else match n with
           | O => s
           | S n' => char_drop n' s'
           end
  end.

Fixpoint all_spaces (s : string) : bool :=
  match s with
  | EmptyString => true
  | String c s' => Ascii.eqb c " " && all_spaces s'
  end.

(** Assignment to a [VARCHAR(255)] column.  A value that fits is stored as
    it is.  Excess trailing spaces are cut in either SQL mode; other excess
    is an error in strict mode and is cut otherwise. *)
Definition store_varchar (strict_mode : bool) (c : Column) (s : string) : Error + string :=
  if (char_length s <=? VARCHAR_LEN)%nat then inr s
  else if strict_mode && negb (all_spaces (char_drop VARCHAR_LEN s))
       then inl (ER_DATA_TOO_LONG c)
       else inr (char_take VARCHAR_LEN s).

(** Assignment to an [INT] column: out of range is an error in strict mode
    and is clipped to the nearest bound otherwise. *)
Definition store_int (strict_mode : bool) (c : Column) (n : Z) : Error + Z :=
  if (INT_MIN <=? n) && (n <=? INT_MAX) then inr n
  else if strict_mode then inl (ER_WARN_DATA_OUT_OF_RANGE c)
       else inr (Z.max INT_MIN (Z.min INT_MAX n)).

(** The three assignments [title = ?, author = ?, year = ?], in order. *)
Definition store_row (strict_mode : bool) (t a : string) (y : Z) : Error + Row :=
  match store_varchar strict_mode col_title t with
  | inl e => inl e
  | inr t' =>
      match store_varchar strict_mode col_author a with
      | inl e => inl e
      | inr a' =>
          match store_int strict_mode col_year y with
          | inl e => inl e
          | inr y' => inr {| title := t'; author := a'; year := y' |}
          end
      end
  end.

(** [sql.Result].  With this driver [LastInsertId()] and [RowsAffected()]
    return the two numbers of the server's OK packet and never an error, so
    the handlers' 500 branches on them are not reached. *)
Record Result := { LastInsertId : Z; RowsAffected : Z }.

(** [SELECT id, title, author, YEAR FROM books] with [rows.Scan] into a
    [Book] per row. *)
Definition scan (kv : Z * Row) : models.Book :=
  {| models.ID := kv.1; models.Title := title kv.2;
     models.Author := author kv.2; models.Year := year kv.2 |}.

(** The order of two rows in the primary-key index. *)
Definition key_le (x y : Z * Row) : Prop := x.1 ≤ y.1.

#[global] Instance key_le_dec : RelDecision key_le.
Proof. intros x y. unfold key_le. apply _. Defined.

(** The statement has no [ORDER BY]; the rows come back as the scan of the
    primary-key index meets them, by increasing [id]. *)
Definition select_all (db : DB) : list (Z * Row) :=
  merge_sort key_le (map_to_list (books db)).

(** [SELECT id, title, author, YEAR FROM books WHERE id = ?] with
    [row.Scan]; [None] is [sql.ErrNoRows]. *)
Definition select_by_id (id : Z) (db : DB) : option models.Book :=
  match books db !! id with
  | Some row => Some (scan (id, row))
  | None => None
  end.

(** [INSERT INTO books (title, author, year) VALUES (?, ?, ?)]: the key is
    the table's counter, which no longer yields a key once it has passed
    the column's range. *)
Definition insert (t a : string) (y : Z) (db : DB) : Error + (Result * DB) :=
  match store_row (strict db) t a y with
  | inl e => inl e
  | inr row =>
      let id := auto_increment db in
      if INT_MAX <? id then inl ER_AUTOINC_READ_FAILED
      else match books db !! id with
           | Some _ => inl (ER_DUP_ENTRY id)
           | None =>
               inr ({| LastInsertId := id; RowsAffected := 1 |},
                    with_table db (<[id := row]> (books db)) (id + 1))
           end
  end.

(** [UPDATE books SET title = ?, author = ?, year = ? WHERE id = ?]: the
    assignments are only evaluated for a matching row; the count is of rows
    matched under [clientFoundRows] and of rows changed without it. *)
Definition update (t a : string) (y : Z) (id : Z) (db : DB) : Error + (Result * DB) :=
  match books db !! id with
  | None => inr ({| LastInsertId := 0; RowsAffected := 0 |}, db)
  | Some old =>
      match store_row (strict db) t a y with
      | inl e => inl e
      | inr new =>
          let n := if clientFoundRows db || negb (bool_decide (old = new))
                   then 1 else 0 in
          inr ({| LastInsertId := 0; RowsAffected := n |},
               with_table db (<[id := new]> (books db)) (auto_increment db))
      end
  end.

(** [DELETE FROM books WHERE id = ?] *)
Definition delete_by_id (id : Z) (db : DB) : Error + (Result * DB) :=
  match books db !! id with
  | None => inr ({| LastInsertId := 0; RowsAffected := 0 |}, db)
  | Some _ =>
      inr ({| LastInsertId := 0; RowsAffected := 1 |},
           with_table db (delete id (books db)) (auto_increment db))
  end.

End mysql.

(** ** Package [database] *)

Module database.

(** The handle [InitDB] returns when it succeeds on a database without a
    [books] table: the DSN it builds, [user:pass@tcp(host:port)/name], has
    no parameters, so [clientFoundRows] keeps the driver's default, and
    [CREATE TABLE IF NOT EXISTS] leaves an empty table whose counter starts
    at 1.  The SQL mode is the server's. *)
Definition InitDB (strict_mode : bool) : mysql.DB :=
  {| mysql.strict := strict_mode; mysql.clientFoundRows := false;
     mysql.books := ∅; mysql.auto_increment := 1 |}.

End database.

(** ** Package [controllers] *)

Module controllers.

Import models http.

Definition required_fields_msg : string :=
  "Invalid request body: Title, Author, and Year are required".

(** [book.Title == "" || book.Author == "" || book.Year == 0] *)
Definition missing_fields (book : Book) : bool :=
  String.eqb (Title book) "" || String.eqb (Author book) "" || (Year book =? 0).

(** [GetBooks]: start from the empty, non-nil [[]models.Book{}], append one
    [Book] per row, encode the slice.  [db.Query], [rows.Scan] and
    [rows.Err] fail only with the connection (the columns are [NOT NULL] and
    of the scanned types), so their 500 branches are not reached here. *)
Definition GetBooks (w : ResponseWriter) (r : Request) (db : mysql.DB)
  : ResponseWriter * mysql.DB :=
  let w := SetContentType "application/json" w in
  let rows := mysql.select_all db in
  let books :=
    fold_left (fun books row => json.append books (mysql.scan row))
      rows (json.make_slice []) in
  (Encode (json.of_Books books) w, db).

(** [GetBook]: of the errors of [row.Scan] only [sql.ErrNoRows] arises on a
    healthy connection. *)
Definition GetBook (w : ResponseWriter) (r : Request) (db : mysql.DB)
  : ResponseWriter * mysql.DB :=
  let w := SetContentType "application/json" w in
  match strconv.Atoi (path_id r) with
  | None => (Error w "Invalid book ID" StatusBadRequest, db)
  | Some id =>
      match mysql.select_by_id id db with
      | None => (Error w "Book not found" StatusNotFound, db)
      | Some book => (Encode (json.of_Book book) w, db)
      end
  end.

Definition CreateBook (w : ResponseWriter) (r : Request) (db : mysql.DB)
  : ResponseWriter * mysql.DB :=
  let w := SetContentType "application/json" w in
  match Body r with
  | json.DecodeError msg =>
      (Error w ("Invalid request body: " +:+ msg) StatusBadRequest, db)
  | json.DecodeOk book =>
      if missing_fields book
      then (Error w required_fields_msg StatusBadRequest, db)
      else
        match mysql.insert (Title book) (Author book) (Year book) db with
        | inl e =>
            (Error w ("Database insert failed: " +:+ mysql.Error_text e)
               StatusInternalServerError, db)
        | inr (result, db') =>
            let book :=
              {| ID := mysql.LastInsertId result; Title := Title book;
                 Author := Author book; Year := Year book |} in
            (Encode (json.of_Book book) (WriteHeader StatusCreated w), db')
        end
  end.

Definition UpdateBook (w : ResponseWriter) (r : Request) (db : mysql.DB)
  : ResponseWriter * mysql.DB :=
  let w := SetContentType "application/json" w in
  match strconv.Atoi (path_id r) with
  | None => (Error w "Invalid book ID" StatusBadRequest, db)
  | Some id =>
      match Body r with
      | json.DecodeError msg =>
          (Error w ("Invalid request body: " +:+ msg) StatusBadRequest, db)
      | json.DecodeOk updatedBook =>
          if missing_fields updatedBook
          then (Error w required_fields_msg StatusBadRequest, db)
          else
            match mysql.update (Title updatedBook) (Author updatedBook)
                    (Year updatedBook) id db with
            | inl e =>
                (Error w ("Database update failed: " +:+ mysql.Error_text e)
                   StatusInternalServerError, db)
            | inr (result, db') =>
                if mysql.RowsAffected result =? 0
                then (Error w "Book not found" StatusNotFound, db')
                else
                  let updatedBook :=
                    {| ID := id; Title := Title updatedBook;
                       Author := Author updatedBook; Year := Year updatedBook |} in
                  (Encode (json.of_Book updatedBook) w, db')
            end
      end
  end.

Definition DeleteBook (w : ResponseWriter) (r : Request) (db : mysql.DB)
  : ResponseWriter * mysql.DB :=
  let w := SetContentType "application/json" w in
  match strconv.Atoi (path_id r) with
  | None => (Error w "Invalid book ID" StatusBadRequest, db)
  | Some id =>
      match mysql.delete_by_id id db with
      | inl e =>
          (Error w ("Database delete failed: " +:+ mysql.Error_text e)
             StatusInternalServerError, db)
      | inr (result, db') =>
          if mysql.RowsAffected result =? 0
          then (Error w "Book not found" StatusNotFound, db')
          else
            (Encode (json.of_message "Book deleted successfully")
               (WriteHeader StatusOK w), db')
      end
  end.

End controllers.

(** ** Package [routes] *)

Module routes.

Import http.

(** The five entries of [SetupRoutes]. *)
Inductive Route :=
| GET_books        (* GET /books *)
| GET_book         (* GET /books/{id} *)
| POST_books       (* POST /books *)
| PUT_book         (* PUT /books/{id} *)
| DELETE_book.     (* DELETE /books/{id} *)

Definition SetupRoutes (route : Route)
  : ResponseWriter -> Request -> mysql.DB -> ResponseWriter * mysql.DB :=
  match route with
  | GET_books => controllers.GetBooks
  | GET_book => controllers.GetBook
  | POST_books => controllers.CreateBook
  | PUT_book => controllers.UpdateBook
  | DELETE_book => controllers.DeleteBook
  end.

(** One request served on a fresh writer. *)
Definition serve (c : Route * Request) (db : mysql.DB) : ResponseWriter * mysql.DB :=
  SetupRoutes c.1 new_writer c.2 db.

(** A sequence of requests served one after the other. *)
Definition serve_all (cs : list (Route * Request)) (db : mysql.DB) : mysql.DB :=
  fold_left (fun db c => (serve c db).2) cs db.

End routes.

(** ** Vocabulary of the statements *)

Import models http.

(** A request on [/books/{id}] with path identifier [s]. *)
Definition with_id (s : string) (body : json.Decoded) : Request :=
  {| Vars := {[ "id"%string := s ]}; Body := body |}.

(** A request on [/books]. *)
Definition no_id (body : json.Decoded) : Request :=
  {| Vars := ∅; Body := body |}.

Definition no_body : json.Decoded := json.DecodeError "EOF".

(** A body passes validation: title and author non-empty, year non-zero. *)
Definition valid (b : Book) : Prop :=
  Title b ≠ ""%string ∧ Author b ≠ ""%string ∧ Year b ≠ 0.

(** A body fits the columns of the table. *)
Definition fits (b : Book) : Prop :=
  (mysql.char_length (Title b) ≤ mysql.VARCHAR_LEN)%nat ∧
  (mysql.char_length (Author b) ≤ mysql.VARCHAR_LEN)%nat ∧
  mysql.INT_MIN ≤ Year b ≤ mysql.INT_MAX.

(** The stored form of a body that fits. *)
Definition row_of (b : Book) : mysql.Row :=
  {| mysql.title := Title b; mysql.author := Author b; mysql.year := Year b |}.

(** The store invariant of the data model: every row has a non-empty title,
    a non-empty author and a non-zero year. *)
Definition persisted_ok (db : mysql.DB) : Prop :=
  ∀ id row, mysql.books db !! id = Some row →
    mysql.title row ≠ ""%string ∧ mysql.author row ≠ ""%string ∧ mysql.year row ≠ 0.

(** What the server maintains for an AUTO_INCREMENT key: the counter is
    above every key in use. *)
Definition counter_above (db : mysql.DB) : Prop :=
  ∀ id, is_Some (mysql.books db !! id) → id < mysql.auto_increment db.

(** A JSON reply and a plain-text error reply, as the client receives them. *)
Definition json_reply (c : Z) (v : json.value) : ResponseWriter :=
  {| content_type := "application/json"; code := Some c; written := [Json v] |}.

Definition error_reply (c : Z) (msg : string) : ResponseWriter :=
  {| content_type := "text/plain; charset=utf-8"; code := Some c;
     written := [Text (msg +:+ newline)] |}.

(** The id carried by a 201 reply, if the reply is one. *)
Definition created_id (w : ResponseWriter) : option Z :=
  match code w, written w with
  | Some 201, [Json (json.Object ((_, json.Number n) :: _))] => Some n
  | _, _ => None
  end.

(** No request of [cs], served in turn from [db], creates a book with key
    [id]. *)
Fixpoint never_assigns (id : Z) (cs : list (routes.Route * Request)) (db : mysql.DB) : Prop :=
  match cs with
  | [] => True
  | c :: cs' =>
      created_id (routes.serve c db).1 ≠ Some id ∧
      never_assigns id cs' (routes.serve c db).2
  end.

(** Create [b], then read it back under any spelling of the returned id:
    201 with the submitted fields and a key that was free, then 200 with
    the same record. *)
Definition round_trip (r : Request) (db : mysql.DB) (b : Book) : Prop :=
  ∃ id,
    let stored := {| ID := id; Title := Title b; Author := Author b; Year := Year b |} in
    mysql.books db !! id = None ∧
    (routes.serve (routes.POST_books, r) db).1
      = json_reply StatusCreated (json.of_Book stored) ∧
    ∀ s body,
      strconv.Atoi s = Some id →
      let db' := (routes.serve (routes.POST_books, r) db).2 in
      routes.serve (routes.GET_book, with_id s body) db'
        = (json_reply StatusOK (json.of_Book stored), db').

(** Sample data: a book, the table after it was created on a fresh
    database, a title of 256 letters and the year 3000000000. *)
Definition dune : Book :=
  {| ID := 0; Title := "Dune"; Author := "Herbert"; Year := 1965 |}.

Definition shelf (strict_mode : bool) : mysql.DB :=
  mysql.with_table (database.InitDB strict_mode) {[ 1 := row_of dune ]} 2.

(** A second book, and the table holding both under the ids 1 and 2. *)
Definition emma : Book :=
  {| ID := 0; Title := "Emma"; Author := "Austen"; Year := 1815 |}.

Definition two_shelf : mysql.DB :=
  mysql.with_table (database.InitDB true)
    (<[ 2 := row_of emma ]> {[ 1 := row_of dune ]}) 3.

Definition messiah : Book :=
  {| ID := 0; Title := "Dune Messiah"; Author := "Herbert"; Year := 1969 |}.

Definition letters (n : nat) : string := string_of_list_ascii (repeat "a"%char n).

Definition long_dune : Book :=
  {| ID := 0; Title := letters 256; Author := "Herbert"; Year := 1965 |}.

Definition late_dune : Book :=
  {| ID := 0; Title := "Dune"; Author := "Herbert"; Year := 3000000000 |}.

Definition untitled : Book :=
  {| ID := 0; Title := ""; Author := "Herbert"; Year := 1965 |}.


(** The books [GetBooks] puts in its array: the rows of the table, scanned. *)
Definition listed (db : mysql.DB) : list Book :=
  map mysql.scan (mysql.select_all db).

(** A row is within the declared bounds of its columns. *)
Definition row_fits (row : mysql.Row) : Prop :=
  (mysql.char_length (mysql.title row) ≤ mysql.VARCHAR_LEN)%nat ∧
  (mysql.char_length (mysql.author row) ≤ mysql.VARCHAR_LEN)%nat ∧
  mysql.INT_MIN ≤ mysql.year row ≤ mysql.INT_MAX.

Definition rows_fit (db : mysql.DB) : Prop :=
  ∀ id row, mysql.books db !! id = Some row → row_fits row.

(** A body that the handlers' validation turns down. *)
Definition rejected_body (body : json.Decoded) : Prop :=
  (∃ msg, body = json.DecodeError msg) ∨
  (∃ b, body = json.DecodeOk b ∧
        (Title b = ""%string ∨ Author b = ""%string ∨ Year b = 0)).

(** * Properties *)

(** ** [strconv.Atoi] against positional notation *)

Section Atoi.

Import strconv.

Lemma digit_Some c d : digit c = Some d ↔ digit_char c d.
Proof.
  unfold digit. split.
  - destruct (_ && _) eqn:E; [|discriminate].
    intros [= <-]. apply andb_prop in E as [?%Z.leb_le ?%Z.leb_le].
    constructor; lia.
  - intros [c' d' Hd Hb]. rewrite Hb.
    destruct (_ && _) eqn:E.
    + f_equal. lia.
    + apply andb_false_iff in E as [E%Z.leb_gt | E%Z.leb_gt]; lia.
Qed.

Lemma digit_string_nonneg s k v : digit_string s k v → 0 ≤ v.
Proof.
  induction 1 as [c d [c' d' Hd _] | c d s k v [c' d' Hd _] _ IH]; [lia|].
  assert (0 ≤ 10 ^ Z.of_nat k) by (apply Z.pow_nonneg; lia). nia.
Qed.

Lemma digits_of_digit_string s k v :
  digit_string s k v → ∀ acc, digits acc s = Some (acc * 10 ^ Z.of_nat k + v).
Proof.
  induction 1 as [c d Hc | c d s k v Hc _ IH]; intros acc; cbn [digits].
  - apply digit_Some in Hc as ->. apply (f_equal Some).
    change (10 ^ Z.of_nat 1) with 10. lia.
  - apply digit_Some in Hc as ->. rewrite IH. apply (f_equal Some).
    rewrite Nat2Z.inj_succ, Z.pow_succ_r by lia. ring.
Qed.

Lemma digit_string_of_digits s :
  s ≠ EmptyString → ∀ acc v, digits acc s = Some v →
  ∃ k w, digit_string s k w ∧ v = acc * 10 ^ Z.of_nat k + w.
Proof.
  induction s as [|c s IH]; [done|]. intros _ acc v. simpl.
  destruct (digit c) as [d|] eqn:Hd; [|discriminate].
  apply digit_Some in Hd. destruct s as [|c' s'].
  - simpl. intros [= <-]. exists 1%nat, d. split; [by constructor|].
    change (10 ^ Z.of_nat 1) with 10. lia.
  - intros Hv. destruct (IH ltac:(done) _ _ Hv) as (k & w & Hs & ->).
    exists (S k), (d * 10 ^ Z.of_nat k + w). split; [by constructor|].
    rewrite Nat2Z.inj_succ, Z.pow_succ_r by lia. ring.
Qed.

Lemma digit_char_not_sign c d : digit_char c d → Ascii.eqb c "-" = false ∧ Ascii.eqb c "+" = false.
Proof.
  intros [c' d' Hd Hb]. split; apply Ascii.eqb_neq; intros ->.
  - change (byte_of "-") with 45 in Hb. lia.
  - change (byte_of "+") with 43 in Hb. lia.
Qed.

Lemma digit_string_head s k v :
  digit_string s k v → ∃ c d s', s = String c s' ∧ digit_char c d.
Proof. destruct 1; eauto. Qed.

(** [Atoi] accepts exactly the numerals whose value fits [int]. *)
Lemma Atoi_Some s n :
  Atoi s = Some n ↔ numeral s n ∧ min_int ≤ n ≤ max_int.
Proof.
  split.
  - destruct s as [|c rest]; [done|]. unfold Atoi.
    set (neg := Ascii.eqb c "-").
    set (body := if neg || Ascii.eqb c "+" then rest else String c rest).
    intros H.
    assert (body ≠ EmptyString) as Hne by (intros E; rewrite E in H; done).
    destruct body as [|b0 body'] eqn:Hbody; [done|].
    destruct (digits 0 (String b0 body')) as [un|] eqn:Hun; [|done].
    destruct (_ && _) eqn:Hrange; [|done]. injection H as <-.
    apply andb_prop in Hrange as [?%Z.leb_le ?%Z.leb_le]. split; [|lia].
    apply digit_string_of_digits in Hun as (k & w & Hs & ->); [|done].
    replace (0 * 10 ^ Z.of_nat k + w) with w by lia.
    subst body. destruct neg eqn:Hneg.
    + simpl in Hbody. apply Ascii.eqb_eq in Hneg. subst c rest.
      eapply numeral_minus; eauto.
    + simpl in Hbody. destruct (Ascii.eqb c "+") eqn:Hplus.
      * apply Ascii.eqb_eq in Hplus. subst c rest. eapply numeral_plus; eauto.
      * rewrite Hbody. eapply numeral_plain; eauto.
  - intros [Hnum Hrange].
    assert (∀ v, (min_int <=? v) && (v <=? max_int) = true ↔ min_int ≤ v ≤ max_int) as Hr.
    { intros v. rewrite andb_true_iff, !Z.leb_le. done. }
    destruct Hnum as [s k v Hs | s k v Hs | s k v Hs].
    + destruct (digit_string_head _ _ _ Hs) as (c & d & s' & -> & Hc).
      destruct (digit_char_not_sign _ _ Hc) as [E1 E2].
      unfold Atoi. rewrite E1, E2. simpl orb. cbv iota.
      rewrite (digits_of_digit_string _ _ _ Hs 0).
      replace (0 * 10 ^ Z.of_nat k + v) with v by lia.
      by rewrite (proj2 (Hr v) Hrange).
    + destruct (digit_string_head _ _ _ Hs) as (c & d & s' & -> & Hc).
      unfold Atoi. change (Ascii.eqb "+" "-") with false.
      change (Ascii.eqb "+" "+") with true. simpl orb. cbv iota.
      rewrite (digits_of_digit_string _ _ _ Hs 0).
      replace (0 * 10 ^ Z.of_nat k + v) with v by lia.
      by rewrite (proj2 (Hr v) Hrange).
    + destruct (digit_string_head _ _ _ Hs) as (c & d & s' & -> & Hc).
      unfold Atoi. change (Ascii.eqb "-" "-") with true. simpl orb. cbv iota.
      rewrite (digits_of_digit_string _ _ _ Hs 0).
      replace (0 * 10 ^ Z.of_nat k + v) with v by lia.
      by rewrite (proj2 (Hr (- v)) Hrange).
Qed.

Lemma Atoi_None s :
  Atoi s = None ↔ ¬ ∃ n, numeral s n ∧ min_int ≤ n ≤ max_int.
Proof.
  split.
  - intros H (n & Hn). apply Atoi_Some in Hn. congruence.
  - intros H. destruct (Atoi s) as [n|] eqn:E; [|done].
    exfalso. apply H. exists n. by apply Atoi_Some.
Qed.

End Atoi.

(** ** Column assignments *)

Section Columns.

Import mysql.

Lemma store_varchar_fits m c s :
  (char_length s ≤ VARCHAR_LEN)%nat → store_varchar m c s = inr s.
Proof.
  intros H. unfold store_varchar.
  by rewrite (proj2 (Nat.leb_le _ _) H).
Qed.

Lemma store_int_fits m c n :
  INT_MIN ≤ n ≤ INT_MAX → store_int m c n = inr n.
Proof.
  intros [H1 H2]. unfold store_int.
  by rewrite (proj2 (Z.leb_le _ _) H1), (proj2 (Z.leb_le _ _) H2).
Qed.

Lemma store_row_fits m b :
  fits b → store_row m (Title b) (Author b) (Year b) = inr (row_of b).
Proof.
  intros (Ht & Ha & Hy). unfold store_row.
  by rewrite !store_varchar_fits, store_int_fits.
Qed.

Lemma char_take_nonempty n s :
  s ≠ EmptyString → char_take (S n) s ≠ EmptyString.
Proof.
  destruct s as [|c s]; [done|]. intros _. simpl.
  by destruct (is_continuation c).
Qed.

Lemma store_varchar_nonempty m c s s' :
  store_varchar m c s = inr s' → s ≠ EmptyString → s' ≠ EmptyString.
Proof.
  unfold store_varchar. destruct (_ <=? _)%nat.
  - by intros [= <-].
  - destruct (_ && _); [done|]. intros [= <-]. apply char_take_nonempty.
Qed.

Lemma store_int_nonzero m c n n' :
  store_int m c n = inr n' → n ≠ 0 → n' ≠ 0.
Proof.
  unfold store_int. destruct (_ && _) eqn:E.
  - by intros [= <-].
  - destruct m; [done|]. intros [= <-] _.
    apply andb_false_iff in E as [E%Z.leb_gt | E%Z.leb_gt];
      unfold INT_MIN, INT_MAX in *; lia.
Qed.

Lemma store_row_nonempty m t a y row :
  store_row m t a y = inr row →
  t ≠ EmptyString → a ≠ EmptyString → y ≠ 0 →
  title row ≠ EmptyString ∧ author row ≠ EmptyString ∧ year row ≠ 0.
Proof.
  unfold store_row.
  destruct (store_varchar m col_title t) as [|t'] eqn:Et; [done|].
  destruct (store_varchar m col_author a) as [|a'] eqn:Ea; [done|].
  destruct (store_int m col_year y) as [|y'] eqn:Ey; [done|].
  intros [= <-] Ht Ha Hy. simpl. split_and!.
  - by eapply store_varchar_nonempty.
  - by eapply store_varchar_nonempty.
  - by eapply store_int_nonzero.
Qed.

End Columns.

(** ** The handlers, route by route *)

Section Handlers.

Import routes.

Lemma missing_fields_false b : controllers.missing_fields b = false ↔ valid b.
Proof.
  unfold controllers.missing_fields, valid.
  rewrite !orb_false_iff, !String.eqb_neq, Z.eqb_neq. tauto.
Qed.

Lemma missing_fields_true b :
  controllers.missing_fields b = true ↔
  Title b = ""%string ∨ Author b = ""%string ∨ Year b = 0.
Proof.
  unfold controllers.missing_fields.
  rewrite !orb_true_iff, !String.eqb_eq, Z.eqb_eq. tauto.
Qed.

Lemma serve_GetBooks_state r db : (serve (GET_books, r) db).2 = db.
Proof. reflexivity. Qed.

Lemma serve_GetBook r db :
  serve (GET_book, r) db =
  match strconv.Atoi (path_id r) with
  | None => (error_reply StatusBadRequest "Invalid book ID", db)
  | Some id =>
      match mysql.books db !! id with
      | None => (error_reply StatusNotFound "Book not found", db)
      | Some row => (json_reply StatusOK (json.of_Book (mysql.scan (id, row))), db)
      end
  end.
Proof.
  unfold serve, SetupRoutes, controllers.GetBook, mysql.select_by_id. simpl.
  destruct (strconv.Atoi (path_id r)) as [id|]; [|reflexivity].
  destruct (mysql.books db !! id); reflexivity.
Qed.

Lemma serve_DeleteBook r db :
  serve (DELETE_book, r) db =
  match strconv.Atoi (path_id r) with
  | None => (error_reply StatusBadRequest "Invalid book ID", db)
  | Some id =>
      match mysql.books db !! id with
      | None => (error_reply StatusNotFound "Book not found", db)
      | Some _ =>
          (json_reply StatusOK (json.of_message "Book deleted successfully"),
           mysql.with_table db (delete id (mysql.books db)) (mysql.auto_increment db))
      end
  end.
Proof.
  unfold serve, SetupRoutes, controllers.DeleteBook, mysql.delete_by_id. simpl.
  destruct (strconv.Atoi (path_id r)) as [id|]; [|reflexivity].
  destruct (mysql.books db !! id); reflexivity.
Qed.

Lemma serve_CreateBook_missing r b db :
  Body r = json.DecodeOk b → controllers.missing_fields b = true →
  serve (POST_books, r) db
    = (error_reply StatusBadRequest controllers.required_fields_msg, db).
Proof.
  intros Hb Hm. unfold serve, SetupRoutes, controllers.CreateBook. simpl.
  by rewrite Hb, Hm.
Qed.

Lemma serve_CreateBook_stored r b row db :
  Body r = json.DecodeOk b → valid b →
  mysql.store_row (mysql.strict db) (Title b) (Author b) (Year b) = inr row →
  mysql.auto_increment db ≤ mysql.INT_MAX →
  mysql.books db !! mysql.auto_increment db = None →
  serve (POST_books, r) db =
    (json_reply StatusCreated
       (json.of_Book {| ID := mysql.auto_increment db; Title := Title b;
                        Author := Author b; Year := Year b |}),
     mysql.with_table db (<[mysql.auto_increment db := row]> (mysql.books db))
       (mysql.auto_increment db + 1)).
Proof.
  intros Hb Hv%missing_fields_false Hrow Hmax Hfree.
  unfold serve, SetupRoutes, controllers.CreateBook, mysql.insert. simpl.
  rewrite Hb, Hv, Hrow, Hfree.
  by rewrite (proj2 (Z.ltb_ge _ _) Hmax).
Qed.

(** Every outcome of a create: the table is untouched, or one row went in
    under the counter's key and the reply is the 201 that names it. *)
Lemma serve_CreateBook_cases r db :
  (serve (POST_books, r) db).2 = db ∧ created_id (serve (POST_books, r) db).1 = None
  ∨ ∃ b row,
      Body r = json.DecodeOk b ∧ valid b ∧
      mysql.store_row (mysql.strict db) (Title b) (Author b) (Year b) = inr row ∧
      mysql.books db !! mysql.auto_increment db = None ∧
      created_id (serve (POST_books, r) db).1 = Some (mysql.auto_increment db) ∧
      (serve (POST_books, r) db).2
        = mysql.with_table db (<[mysql.auto_increment db := row]> (mysql.books db))
            (mysql.auto_increment db + 1).
Proof.
  unfold serve, SetupRoutes, controllers.CreateBook, mysql.insert. simpl.
  destruct (Body r) as [msg|b] eqn:Hb; [by left|].
  destruct (controllers.missing_fields b) eqn:Hm; [by left|].
  destruct (mysql.store_row _ _ _ _) as [e|row] eqn:Hrow; [by left|].
  destruct (_ <? _) eqn:Hmax; [by left|].
  destruct (mysql.books db !! _) eqn:Hfree; [by left|].
  right. exists b, row. apply missing_fields_false in Hm. done.
Qed.

(** Every outcome of an update: the table is untouched, or the row under
    the path id, which existed, was overwritten. *)
Lemma serve_UpdateBook_cases r db :
  (serve (PUT_book, r) db).2 = db
  ∨ ∃ id b old row,
      strconv.Atoi (path_id r) = Some id ∧ Body r = json.DecodeOk b ∧ valid b ∧
      mysql.books db !! id = Some old ∧
      mysql.store_row (mysql.strict db) (Title b) (Author b) (Year b) = inr row ∧
      (serve (PUT_book, r) db).2
        = mysql.with_table db (<[id := row]> (mysql.books db)) (mysql.auto_increment db).
Proof.
  unfold serve, SetupRoutes, controllers.UpdateBook, mysql.update. simpl.
  destruct (strconv.Atoi (path_id r)) as [id|] eqn:Hid; [|by left].
  destruct (Body r) as [msg|b] eqn:Hb; [by left|].
  destruct (controllers.missing_fields b) eqn:Hm; [by left|].
  destruct (mysql.books db !! id) as [old|] eqn:Hold; [|by left].
  destruct (mysql.store_row _ _ _ _) as [e|row] eqn:Hrow; [by left|].
  right. exists id, b, old, row. apply missing_fields_false in Hm.
  split_and!; try done. simpl. by destruct (_ || _).
Qed.


End Handlers.

(** ** Table invariants along requests *)

Section Invariants.

Import routes.

Lemma path_id_with_id s body : path_id (with_id s body) = s.
Proof. unfold path_id, with_id. simpl. by rewrite lookup_singleton_eq. Qed.

Lemma select_all_Permutation db :
  mysql.select_all db ≡ₚ map_to_list (mysql.books db).
Proof. apply merge_sort_Permutation. Qed.

Lemma elem_of_select_all db k row :
  (k, row) ∈ mysql.select_all db ↔ mysql.books db !! k = Some row.
Proof. by rewrite select_all_Permutation, elem_of_map_to_list. Qed.

Lemma NoDup_select_all db : NoDup (mysql.select_all db).
Proof. rewrite select_all_Permutation. apply NoDup_map_to_list. Qed.

Lemma length_select_all db :
  List.length (mysql.select_all db) = size (mysql.books db).
Proof. by rewrite select_all_Permutation, length_map_to_list. Qed.

(** The rows of a list come by increasing id. *)
Lemma select_all_sorted db : StronglySorted mysql.key_le (mysql.select_all db).
Proof.
  assert (Transitive mysql.key_le) by (intros x y z; unfold mysql.key_le; lia).
  assert (Total mysql.key_le) by (intros x y; unfold mysql.key_le; lia).
  by apply StronglySorted_merge_sort.
Qed.

Lemma serve_GetBook_state r db : (serve (GET_book, r) db).2 = db.
Proof.
  rewrite serve_GetBook.
  destruct (strconv.Atoi _); [destruct (mysql.books db !! _)|]; reflexivity.
Qed.

Lemma serve_DeleteBook_state r db :
  (serve (DELETE_book, r) db).2 = db
  ∨ ∃ id, strconv.Atoi (path_id r) = Some id ∧
      (serve (DELETE_book, r) db).2
        = mysql.with_table db (delete id (mysql.books db)) (mysql.auto_increment db).
Proof.
  rewrite serve_DeleteBook.
  destruct (strconv.Atoi _) as [id|]; [|by left].
  destruct (mysql.books db !! _); [|by left]. right. by exists id.
Qed.

Lemma persisted_ok_serve c db : persisted_ok db → persisted_ok (serve c db).2.
Proof.
  intros Hok. destruct c as [[] r].
  - by rewrite serve_GetBooks_state.
  - by rewrite serve_GetBook_state.
  - destruct (serve_CreateBook_cases r db)
      as [[-> _] | (b & row & _ & (Ht & Ha & Hy) & Hrow & _ & _ & ->)]; [done|].
    intros k row'. simpl. rewrite lookup_insert. case_decide.
    + intros [= <-]. by eapply store_row_nonempty.
    + apply Hok.
  - destruct (serve_UpdateBook_cases r db)
      as [-> | (id & b & old & row & _ & _ & (Ht & Ha & Hy) & _ & Hrow & ->)]; [done|].
    intros k row'. simpl. rewrite lookup_insert. case_decide.
    + intros [= <-]. by eapply store_row_nonempty.
    + apply Hok.
  - destruct (serve_DeleteBook_state r db) as [-> | (id & _ & ->)]; [done|].
    intros k row'. simpl. rewrite lookup_delete. case_decide; [done|]. apply Hok.
Qed.

Lemma persisted_ok_serve_all cs db : persisted_ok db → persisted_ok (serve_all cs db).
Proof.
  revert db. induction cs as [|c cs IH]; intros db Hok; [done|].
  simpl. apply IH. by apply persisted_ok_serve.
Qed.

Lemma persisted_ok_InitDB m : persisted_ok (database.InitDB m).
Proof. intros id row. simpl. by rewrite lookup_empty. Qed.

Lemma counter_above_free db :
  counter_above db → mysql.books db !! mysql.auto_increment db = None.
Proof.
  intros Habove. destruct (mysql.books db !! _) eqn:E; [|done].
  specialize (Habove _ (mk_is_Some _ _ E)). lia.
Qed.

Lemma counter_above_serve c db : counter_above db → counter_above (serve c db).2.
Proof.
  intros Habove. destruct c as [[] r].
  - by rewrite serve_GetBooks_state.
  - by rewrite serve_GetBook_state.
  - destruct (serve_CreateBook_cases r db)
      as [[-> _] | (b & row & _ & _ & _ & _ & _ & ->)]; [done|].
    intros k. simpl. rewrite lookup_insert. case_decide; [lia|].
    intros Hk%Habove. lia.
  - destruct (serve_UpdateBook_cases r db)
      as [-> | (id & b & old & row & _ & _ & _ & Hold & _ & ->)]; [done|].
    intros k. simpl. rewrite lookup_insert. case_decide; [|apply Habove].
    intros _. subst k. apply Habove. by eexists.
  - destruct (serve_DeleteBook_state r db) as [-> | (id & _ & ->)]; [done|].
    intros k. simpl. rewrite lookup_delete. case_decide; [by intros [? [=]]|].
    apply Habove.
Qed.

Lemma counter_above_serve_all cs db : counter_above db → counter_above (serve_all cs db).
Proof.
  revert db. induction cs as [|c cs IH]; intros db Hok; [done|].
  simpl. apply IH. by apply counter_above_serve.
Qed.

Lemma counter_above_InitDB m : counter_above (database.InitDB m).
Proof. intros id. simpl. rewrite lookup_empty. by intros [? [=]]. Qed.

(** A key that is free stays free as long as no create is answered with it. *)
Lemma absent_serve id c db :
  mysql.books db !! id = None →
  created_id (serve c db).1 ≠ Some id →
  mysql.books (serve c db).2 !! id = None.
Proof.
  intros Hfree Hnew. destruct c as [[] r].
  - by rewrite serve_GetBooks_state.
  - by rewrite serve_GetBook_state.
  - destruct (serve_CreateBook_cases r db)
      as [[-> _] | (b & row & _ & _ & _ & _ & Hid & ->)]; [done|].
    simpl. rewrite lookup_insert_ne; [done|]. congruence.
  - destruct (serve_UpdateBook_cases r db)
      as [-> | (k & b & old & row & _ & _ & _ & Hold & _ & ->)]; [done|].
    simpl. rewrite lookup_insert_ne; [done|]. congruence.
  - destruct (serve_DeleteBook_state r db) as [-> | (k & _ & ->)]; [done|].
    simpl. rewrite lookup_delete. by case_decide.
Qed.

Lemma absent_serve_all id cs db :
  mysql.books db !! id = None → never_assigns id cs db →
  mysql.books (serve_all cs db) !! id = None.
Proof.
  revert db. induction cs as [|c cs IH]; intros db Hfree Hcs; [done|].
  destruct Hcs as [Hc Hcs]. simpl. apply IH; [|done]. by apply absent_serve.
Qed.

End Invariants.

(** ** The claims *)

Section Claims.

Import routes.

Local Ltac by_run :=
  vm_compute; first [ reflexivity | discriminate | intros; discriminate | lia ].

(** C1, as amended: for every create request whose body passes validation
    and fits the columns of the table (title and author of at most 255
    characters, year within the signed 32-bit range of [INT]), on a table
    whose key counter is above every key in use and still within [INT],
    the create returns 201 with a key assigned by the store that was free
    before, and a get-by-id with that id, under any spelling [Atoi] reads as
    that id, returns 200 with the same title, author and year. *)
Theorem create_then_get r b db :
  Body r = json.DecodeOk b → valid b → fits b →
  counter_above db → mysql.auto_increment db ≤ mysql.INT_MAX →
  round_trip r db b.
Proof.
  intros Hb Hv Hf Habove Hmax.
  pose proof (counter_above_free db Habove) as Hfree.
  pose proof (serve_CreateBook_stored r b (row_of b) db Hb Hv
                (store_row_fits _ b Hf) Hmax Hfree) as Hcreate.
  exists (mysql.auto_increment db). rewrite Hcreate. split_and!; [done..|].
  intros s body Hs. cbn zeta. rewrite serve_GetBook, path_id_with_id, Hs.
  cbn [snd mysql.books mysql.with_table]. by rewrite lookup_insert_eq.
Qed.

Lemma create_then_get_witness :
  round_trip (no_id (json.DecodeOk dune)) (database.InitDB true) dune.
Proof.
  apply create_then_get.
  - reflexivity.
  - unfold valid. split_and!; by_run.
  - unfold fits. split_and!; by_run.
  - apply counter_above_InitDB.
  - by_run.
Defined.

(** C1, as stated, fails: a body that passes validation with the year
    3000000000 is answered 500 in strict SQL mode, and in the other mode it
    is answered 201 but read back with the year 2147483647; a title of 256
    letters fares the same. *)
Lemma create_then_get_overflow :
  let r := no_id (json.DecodeOk late_dune) in
  valid late_dune ∧ valid long_dune ∧
  status (serve (POST_books, r) (database.InitDB true)).1 = StatusInternalServerError ∧
  status (serve (POST_books, r) (database.InitDB false)).1 = StatusCreated ∧
  (serve (GET_book, with_id "1" no_body) (serve (POST_books, r) (database.InitDB false)).2).1
    = json_reply StatusOK
        (json.of_Book {| ID := 1; Title := "Dune"; Author := "Herbert"; Year := 2147483647 |}) ∧
  ¬ round_trip r (database.InitDB true) late_dune ∧
  ¬ round_trip r (database.InitDB false) late_dune ∧
  ¬ round_trip (no_id (json.DecodeOk long_dune)) (database.InitDB true) long_dune ∧
  ¬ round_trip (no_id (json.DecodeOk long_dune)) (database.InitDB false) long_dune.
Proof.
  cbv zeta.
  assert (∀ r db b, round_trip r db b →
            ∃ id, created_id (serve (POST_books, r) db).1 = Some id ∧
              (id = 1 →
               (serve (GET_book, with_id "1" no_body) (serve (POST_books, r) db).2).1
               = json_reply StatusOK
                   (json.of_Book {| ID := 1; Title := Title b; Author := Author b;
                                    Year := Year b |}))) as Hrt.
  { intros r db b (id & _ & Hcreate & Hget). exists id.
    rewrite Hcreate. split; [reflexivity|]. intros ->.
    by rewrite (Hget "1"%string no_body eq_refl). }
  unfold valid. split_and!.
  1-9: by_run.
  - intros (id & Hid & _)%Hrt. revert Hid. by_run.
  - intros (id & Hid & Hget)%Hrt.
    assert (id = 1) as Hone by (revert Hid; vm_compute; congruence).
    specialize (Hget Hone). revert Hget. by_run.
  - intros (id & Hid & _)%Hrt. revert Hid. by_run.
  - intros (id & Hid & Hget)%Hrt.
    assert (id = 1) as Hone by (revert Hid; vm_compute; congruence).
    specialize (Hget Hone). revert Hget. by_run.
Qed.

(** C2: every row of the table has a non-empty title, a non-empty author
    and a non-zero year after any sequence of requests served from a table
    where that holds (list, get-by-id, create, update and delete each
    preserve it), and so after any sequence served from the empty table
    that [InitDB] creates. *)
Theorem persisted_books_pass_validation cs db m :
  (persisted_ok db → persisted_ok (serve_all cs db)) ∧
  (∀ c, persisted_ok db → persisted_ok (serve c db).2) ∧
  persisted_ok (serve_all cs (database.InitDB m)).
Proof.
  split_and!.
  - apply persisted_ok_serve_all.
  - intros c. apply persisted_ok_serve.
  - apply persisted_ok_serve_all, persisted_ok_InitDB.
Qed.

Lemma persisted_books_pass_validation_witness :
  persisted_ok (shelf false) ∧
  persisted_ok
    (serve_all [(POST_books, no_id (json.DecodeOk long_dune));
                (PUT_book, with_id "1" (json.DecodeOk late_dune));
                (PUT_book, with_id "2" (json.DecodeOk untitled));
                (DELETE_book, with_id "1" no_body)] (shelf false)).
Proof.
  assert (persisted_ok (shelf false)) as Hshelf.
  { intros id row. unfold shelf. simpl. rewrite lookup_singleton.
    case_decide; [|done]. intros [= <-]. split_and!; by_run. }
  split; [exact Hshelf|].
  exact (proj1 (persisted_books_pass_validation _ (shelf false) false) Hshelf).
Defined.

(** C3: a create or an update whose decoded body has an empty title, an
    empty author or the year zero is answered 400 and leaves the store as
    it was. *)
Theorem missing_fields_rejected r b db :
  Body r = json.DecodeOk b →
  Title b = ""%string ∨ Author b = ""%string ∨ Year b = 0 →
  serve (POST_books, r) db
    = (error_reply StatusBadRequest controllers.required_fields_msg, db) ∧
  serve (PUT_book, r) db
    = (error_reply StatusBadRequest
         (match strconv.Atoi (path_id r) with
          | None => "Invalid book ID"
          | Some _ => controllers.required_fields_msg
          end), db).
Proof.
  intros Hb Hm%missing_fields_true. split.
  - by apply serve_CreateBook_missing with b.
  - unfold serve, SetupRoutes, controllers.UpdateBook. simpl.
    destruct (strconv.Atoi (path_id r)); [|reflexivity]. by rewrite Hb, Hm.
Qed.

Lemma missing_fields_rejected_witness :
  serve (POST_books, with_id "1" (json.DecodeOk untitled)) (shelf true)
    = (error_reply StatusBadRequest controllers.required_fields_msg, shelf true) ∧
  serve (PUT_book, with_id "1" (json.DecodeOk untitled)) (shelf true)
    = (error_reply StatusBadRequest controllers.required_fields_msg, shelf true).
Proof.
  exact (missing_fields_rejected (with_id "1" (json.DecodeOk untitled)) untitled
           (shelf true) eq_refl (or_introl eq_refl)).
Defined.

(** C4: a get-by-id whose path identifier is not a valid integer is
    answered 400; with a valid integer and no row under it, 404; with a row
    under it, 200 with the JSON object of that book. *)
Theorem GetBook_by_id r db :
  (strconv.Atoi (path_id r) = None →
   serve (GET_book, r) db = (error_reply StatusBadRequest "Invalid book ID", db)) ∧
  (∀ id, strconv.Atoi (path_id r) = Some id → mysql.books db !! id = None →
   serve (GET_book, r) db = (error_reply StatusNotFound "Book not found", db)) ∧
  (∀ id row, strconv.Atoi (path_id r) = Some id → mysql.books db !! id = Some row →
   serve (GET_book, r) db
     = (json_reply StatusOK
          (json.of_Book {| ID := id; Title := mysql.title row;
                           Author := mysql.author row; Year := mysql.year row |}), db)).
Proof.
  rewrite serve_GetBook. split_and!.
  - by intros ->.
  - by intros id -> ->.
  - by intros id row -> ->.
Qed.

Lemma GetBook_by_id_witness :
  serve (GET_book, with_id "abc" no_body) (shelf true)
    = (error_reply StatusBadRequest "Invalid book ID", shelf true) ∧
  serve (GET_book, with_id "2" no_body) (shelf true)
    = (error_reply StatusNotFound "Book not found", shelf true) ∧
  serve (GET_book, with_id "1" no_body) (shelf true)
    = (json_reply StatusOK
         (json.of_Book {| ID := 1; Title := "Dune"; Author := "Herbert"; Year := 1965 |}),
       shelf true).
Proof.
  split_and!.
  - exact (proj1 (GetBook_by_id (with_id "abc" no_body) (shelf true)) eq_refl).
  - exact (proj1 (proj2 (GetBook_by_id (with_id "2" no_body) (shelf true))) 2 eq_refl eq_refl).
  - exact (proj2 (proj2 (GetBook_by_id (with_id "1" no_body) (shelf true)))
             1 (row_of dune) eq_refl eq_refl).
Defined.

(** C5, as amended: for an update with a valid integer path id and a body
    that passes validation and fits the columns, if a row with that id
    exists and the body changes it (or the connection counts matched rows),
    the response is 200, its body is the updated record with the path id as
    its id (an id in the request body is ignored) and the row now holds that
    record; if zero rows are affected the response is 404, which is the case
    when no row has that id. *)
Theorem update_existing r id b db :
  strconv.Atoi (path_id r) = Some id → Body r = json.DecodeOk b →
  valid b → fits b →
  (∀ old, mysql.books db !! id = Some old →
     mysql.clientFoundRows db = true ∨ old ≠ row_of b →
     serve (PUT_book, r) db
       = (json_reply StatusOK
            (json.of_Book {| ID := id; Title := Title b; Author := Author b;
                             Year := Year b |}),
          mysql.with_table db (<[id := row_of b]> (mysql.books db))
            (mysql.auto_increment db))) ∧
  (∀ res db', mysql.update (Title b) (Author b) (Year b) id db = inr (res, db') →
     mysql.RowsAffected res = 0 →
     serve (PUT_book, r) db = (error_reply StatusNotFound "Book not found", db')) ∧
  (mysql.books db !! id = None →
     serve (PUT_book, r) db = (error_reply StatusNotFound "Book not found", db)).
Proof.
  intros Hid Hb Hv%missing_fields_false Hf. split_and!.
  - intros old Hold Hchg.
    unfold serve, SetupRoutes, controllers.UpdateBook, mysql.update. simpl.
    rewrite Hid, Hb, Hv, Hold, (store_row_fits _ b Hf). simpl.
    destruct Hchg as [-> | Hne]; [reflexivity|].
    rewrite (bool_decide_eq_false_2 _ Hne), orb_true_r. reflexivity.
  - intros res db' Hupd Hzero.
    unfold serve, SetupRoutes, controllers.UpdateBook. simpl.
    rewrite Hid, Hb, Hv, Hupd, Hzero. reflexivity.
  - intros Hnone.
    unfold serve, SetupRoutes, controllers.UpdateBook, mysql.update. simpl.
    rewrite Hid, Hb, Hv, Hnone. reflexivity.
Qed.

Lemma update_existing_witness :
  serve (PUT_book, with_id "1" (json.DecodeOk {| ID := 9; Title := "Dune";
           Author := "Herbert"; Year := 1966 |})) (shelf true)
    = (json_reply StatusOK
         (json.of_Book {| ID := 1; Title := "Dune"; Author := "Herbert"; Year := 1966 |}),
       mysql.with_table (shelf true)
         (<[1 := {| mysql.title := "Dune"; mysql.author := "Herbert";
                    mysql.year := 1966 |}]> (mysql.books (shelf true))) 2).
Proof.
  assert (valid {| ID := 9; Title := "Dune"; Author := "Herbert"; Year := 1966 |})
    as Hv by (unfold valid; split_and!; by_run).
  assert (fits {| ID := 9; Title := "Dune"; Author := "Herbert"; Year := 1966 |})
    as Hf by (unfold fits; split_and!; by_run).
  refine (proj1 (update_existing (with_id "1" (json.DecodeOk _)) 1 _ (shelf true)
                   eq_refl eq_refl Hv Hf) (row_of dune) eq_refl (or_intror _)).
  by_run.
Defined.

(** C5, as stated, fails: on the table holding the one book created from
    [dune], an update of id 1 with the very same title, author and year is
    answered 404 "Book not found" in either SQL mode although the row
    exists, over the connection [InitDB] opens; and in strict mode an
    update of id 1 with the year 3000000000, which passes validation, is
    answered 500 and leaves the row as it was. *)
Lemma update_existing_unchanged_row :
  valid dune ∧ valid late_dune ∧
  strconv.Atoi "1" = Some 1 ∧
  (∀ m, mysql.books (shelf m) !! 1 = Some (row_of dune)) ∧
  serve (PUT_book, with_id "1" (json.DecodeOk dune)) (shelf true)
    = (error_reply StatusNotFound "Book not found", shelf true) ∧
  serve (PUT_book, with_id "1" (json.DecodeOk dune)) (shelf false)
    = (error_reply StatusNotFound "Book not found", shelf false) ∧
  status (serve (PUT_book, with_id "1" (json.DecodeOk late_dune)) (shelf true)).1
    = StatusInternalServerError ∧
  (serve (PUT_book, with_id "1" (json.DecodeOk late_dune)) (shelf true)).2 = shelf true.
Proof.
  unfold valid. split_and!; by_run.
Qed.

(** C6, as amended: an update whose valid integer path id matches no row
    leaves the store as it was, whatever its body (no row is inserted), and
    is answered 404 when its body passes validation. *)
Theorem update_missing r id db :
  strconv.Atoi (path_id r) = Some id → mysql.books db !! id = None →
  (serve (PUT_book, r) db).2 = db ∧
  (∀ b, Body r = json.DecodeOk b → valid b →
     (serve (PUT_book, r) db).1 = error_reply StatusNotFound "Book not found").
Proof.
  intros Hid Hnone. split.
  - destruct (serve_UpdateBook_cases r db)
      as [-> | (k & b & old & row & Hk & _ & _ & Hold & _)]; [done|]. congruence.
  - intros b Hb Hv%missing_fields_false.
    unfold serve, SetupRoutes, controllers.UpdateBook, mysql.update. simpl.
    rewrite Hid, Hb, Hv, Hnone. reflexivity.
Qed.

Lemma update_missing_witness :
  (serve (PUT_book, with_id "7" (json.DecodeOk dune)) (shelf true)).2 = shelf true ∧
  (serve (PUT_book, with_id "7" (json.DecodeOk dune)) (shelf true)).1
    = error_reply StatusNotFound "Book not found".
Proof.
  pose proof (update_missing (with_id "7" (json.DecodeOk dune)) 7 (shelf true)
                eq_refl eq_refl) as [Hstate Hreply].
  split; [exact Hstate|]. apply (Hreply dune eq_refl).
  unfold valid. split_and!; by_run.
Defined.

(** C6, as stated, fails: an update of id 7, which matches no row, with an
    empty title is answered 400, not 404. *)
Lemma update_missing_invalid_body :
  strconv.Atoi "7" = Some 7 ∧
  mysql.books (shelf true) !! 7 = None ∧
  serve (PUT_book, with_id "7" (json.DecodeOk untitled)) (shelf true)
    = (error_reply StatusBadRequest controllers.required_fields_msg, shelf true) ∧
  status (serve (PUT_book, with_id "7" (json.DecodeOk untitled)) (shelf true)).1
    ≠ StatusNotFound.
Proof. split_and!; by_run. Qed.

(** C7: once a delete of an id has been answered 200, and as long as no
    request served in between creates a book under that id, a second delete
    of the same id is answered 404 and leaves the store as it was. *)
Theorem delete_twice r r' id cs db :
  strconv.Atoi (path_id r) = Some id → strconv.Atoi (path_id r') = Some id →
  status (serve (DELETE_book, r) db).1 = StatusOK →
  never_assigns id cs (serve (DELETE_book, r) db).2 →
  serve (DELETE_book, r') (serve_all cs (serve (DELETE_book, r) db).2)
    = (error_reply StatusNotFound "Book not found",
       serve_all cs (serve (DELETE_book, r) db).2).
Proof.
  intros Hid Hid' Hok Hcs.
  assert (mysql.books (serve (DELETE_book, r) db).2 !! id = None) as Hgone.
  { revert Hok. rewrite serve_DeleteBook, Hid.
    destruct (mysql.books db !! id) eqn:Hrow; [|done].
    intros _. simpl. by rewrite lookup_delete_eq. }
  pose proof (absent_serve_all id cs _ Hgone Hcs) as Hstill.
  by rewrite serve_DeleteBook, Hid', Hstill.
Qed.

Lemma delete_twice_witness :
  serve (DELETE_book, with_id "01" no_body)
    (serve_all [(POST_books, no_id (json.DecodeOk dune));
                (PUT_book, with_id "1" (json.DecodeOk dune));
                (GET_books, no_id no_body)]
       (serve (DELETE_book, with_id "1" no_body) (shelf true)).2)
  = (error_reply StatusNotFound "Book not found",
     serve_all [(POST_books, no_id (json.DecodeOk dune));
                (PUT_book, with_id "1" (json.DecodeOk dune));
                (GET_books, no_id no_body)]
       (serve (DELETE_book, with_id "1" no_body) (shelf true)).2).
Proof.
  apply (delete_twice (with_id "1" no_body) (with_id "01" no_body) 1).
  - reflexivity.
  - reflexivity.
  - reflexivity.
  - simpl never_assigns. split_and!; by_run.
Defined.

(** The loop of [GetBooks]: appending to a non-nil slice keeps it non-nil
    and adds the scanned rows in order. *)
Lemma fold_append_scan rows acc :
  fold_left (fun books row => json.append books (mysql.scan row)) rows
    (json.make_slice acc)
  = json.make_slice (acc ++ map mysql.scan rows).
Proof.
  revert acc. induction rows as [|row rows IH]; intros acc; simpl.
  - by rewrite app_nil_r.
  - rewrite IH. by rewrite <- app_assoc.
Qed.

Lemma serve_GetBooks r db :
  serve (GET_books, r) db
  = (json_reply StatusOK
       (json.Array (map json.of_Book (map mysql.scan (mysql.select_all db)))),
     db).
Proof.
  unfold serve, SetupRoutes, controllers.GetBooks. cbn [fst snd].
  by rewrite fold_append_scan.
Qed.

Lemma scan_inj kv kv' : mysql.scan kv = mysql.scan kv' → kv = kv'.
Proof.
  destruct kv as [k [t a y]], kv' as [k' [t' a' y']].
  unfold mysql.scan. simpl. by intros [= -> -> -> ->].
Qed.

(** C8: in every store state the list operation is answered 200 with a JSON
    array that holds exactly one book per row of the table (no book twice,
    as many books as rows, and a book is listed exactly when its row is in
    the table under its id) and leaves the store as it was; on a table
    without rows the body is the empty array, not [null]. *)
Theorem GetBooks_lists_every_row r db :
  ∃ bs : list Book,
    serve (GET_books, r) db
      = (json_reply StatusOK (json.Array (map json.of_Book bs)), db) ∧
    NoDup bs ∧
    List.length bs = size (mysql.books db) ∧
    (∀ b, b ∈ bs ↔ mysql.books db !! ID b = Some (row_of b)) ∧
    (mysql.books db = ∅ → bs = [] ∧
       (serve (GET_books, r) db).1 = json_reply StatusOK (json.Array []) ∧
       (serve (GET_books, r) db).1 ≠ json_reply StatusOK json.Null).
Proof.
  exists (mysql.scan <$> mysql.select_all db). split_and!.
  - apply serve_GetBooks.
  - apply NoDup_fmap_2_strong; [|apply NoDup_select_all].
    intros kv kv' _ _. apply scan_inj.
  - by rewrite length_fmap, length_select_all.
  - intros b. rewrite list_elem_of_fmap. split.
    + intros ([k row] & -> & Hin%elem_of_select_all). simpl.
      by destruct row.
    + intros Hrow. exists (ID b, row_of b). split.
      * by destruct b.
      * by apply elem_of_select_all.
  - intros Hempty. rewrite serve_GetBooks. unfold mysql.select_all.
    rewrite Hempty, map_to_list_empty. done.
Qed.

Lemma GetBooks_lists_every_row_witness :
  serve (GET_books, no_id no_body) (database.InitDB true)
    = (json_reply StatusOK (json.Array []), database.InitDB true) ∧
  ∃ bs : list Book,
    serve (GET_books, no_id no_body) (shelf true)
      = (json_reply StatusOK (json.Array (map json.of_Book bs)), shelf true) ∧
    List.length bs = 1%nat ∧
    {| ID := 1; Title := "Dune"; Author := "Herbert"; Year := 1965 |} ∈ bs.
Proof.
  split.
  - destruct (GetBooks_lists_every_row (no_id no_body) (database.InitDB true))
      as (bs & -> & _ & _ & _ & Hempty).
    by destruct (Hempty eq_refl) as [-> _].
  - destruct (GetBooks_lists_every_row (no_id no_body) (shelf true))
      as (bs & Hreply & _ & Hlen & Hin & _).
    exists bs. split_and!.
    + exact Hreply.
    + rewrite Hlen. unfold shelf. simpl. apply map_size_singleton.
    + apply Hin. reflexivity.
Defined.

(** C9, as amended: a path identifier that [Atoi] reads as zero or as a
    negative integer is treated as a valid id: get-by-id and delete are
    answered 404 when no row matches, and so is an update whose body passes
    validation; no body makes an update reject the identifier.  [Atoi]
    rejects exactly the strings that are not a numeral (an optional sign
    and one or more decimal digits) or whose value is outside [int]. *)
Theorem nonpositive_id_is_valid r id db :
  strconv.Atoi (path_id r) = Some id → id ≤ 0 → mysql.books db !! id = None →
  serve (GET_book, r) db = (error_reply StatusNotFound "Book not found", db) ∧
  serve (DELETE_book, r) db = (error_reply StatusNotFound "Book not found", db) ∧
  (∀ b, Body r = json.DecodeOk b → valid b →
     serve (PUT_book, r) db = (error_reply StatusNotFound "Book not found", db)) ∧
  (serve (PUT_book, r) db).1 ≠ error_reply StatusBadRequest "Invalid book ID" ∧
  (∀ s, strconv.Atoi s = None ↔
        ¬ ∃ n, strconv.numeral s n ∧ strconv.min_int ≤ n ≤ strconv.max_int).
Proof.
  intros Hid _ Hnone. split_and!.
  - by rewrite serve_GetBook, Hid, Hnone.
  - by rewrite serve_DeleteBook, Hid, Hnone.
  - intros b Hb Hv%missing_fields_false.
    unfold serve, SetupRoutes, controllers.UpdateBook, mysql.update. simpl.
    rewrite Hid, Hb, Hv, Hnone. reflexivity.
  - unfold serve, SetupRoutes, controllers.UpdateBook, mysql.update. simpl.
    rewrite Hid, Hnone.
    destruct (Body r) as [msg|b]; [intros [=]|].
    destruct (controllers.missing_fields b); intros [=].
  - apply Atoi_None.
Qed.

Lemma nonpositive_id_is_valid_witness :
  serve (GET_book, with_id "-3" (json.DecodeOk dune)) (shelf true)
    = (error_reply StatusNotFound "Book not found", shelf true) ∧
  serve (DELETE_book, with_id "-3" (json.DecodeOk dune)) (shelf true)
    = (error_reply StatusNotFound "Book not found", shelf true) ∧
  serve (PUT_book, with_id "-3" (json.DecodeOk dune)) (shelf true)
    = (error_reply StatusNotFound "Book not found", shelf true).
Proof.
  assert (-3 ≤ 0) as Hneg by lia.
  pose proof (nonpositive_id_is_valid (with_id "-3" (json.DecodeOk dune)) (-3)
                (shelf true) eq_refl Hneg eq_refl) as (Hget & Hdel & Hput & _).
  split_and!; [exact Hget | exact Hdel |].
  apply (Hput dune eq_refl). unfold valid. split_and!; by_run.
Defined.

(** C9, as stated, fails for update: with the path identifier "0", which
    [Atoi] reads as 0 and which matches no row, an update whose body has an
    empty title is answered 400, not 404. *)
Lemma nonpositive_id_invalid_body :
  strconv.Atoi "0" = Some 0 ∧
  mysql.books (shelf true) !! 0 = None ∧
  serve (PUT_book, with_id "0" (json.DecodeOk untitled)) (shelf true)
    = (error_reply StatusBadRequest controllers.required_fields_msg, shelf true) ∧
  status (serve (PUT_book, with_id "0" (json.DecodeOk untitled)) (shelf true)).1
    ≠ StatusNotFound.
Proof. split_and!; by_run. Qed.

(** C10: an update or a delete with the valid integer path id [id] leaves
    every row under another id as it was, and a get-by-id or a list leaves
    the whole store as it was. *)
Theorem other_rows_untouched r db :
  (∀ id k, strconv.Atoi (path_id r) = Some id → k ≠ id →
     mysql.books (serve (PUT_book, r) db).2 !! k = mysql.books db !! k ∧
     mysql.books (serve (DELETE_book, r) db).2 !! k = mysql.books db !! k) ∧
  (serve (GET_book, r) db).2 = db ∧
  (serve (GET_books, r) db).2 = db.
Proof.
  split_and!.
  - intros id k Hid Hk. split.
    + destruct (serve_UpdateBook_cases r db)
        as [-> | (id' & b & old & row & Hid' & _ & _ & _ & _ & ->)]; [done|].
      simpl. rewrite lookup_insert_ne; [done|]. congruence.
    + destruct (serve_DeleteBook_state r db) as [-> | (id' & Hid' & ->)]; [done|].
      simpl. rewrite lookup_delete_ne; [done|]. congruence.
  - apply serve_GetBook_state.
  - apply serve_GetBooks_state.
Qed.

Lemma other_rows_untouched_witness :
  (serve (PUT_book, with_id "1" (json.DecodeOk messiah)) two_shelf).1
    = json_reply StatusOK
        (json.of_Book {| ID := 1; Title := "Dune Messiah"; Author := "Herbert";
                         Year := 1969 |}) ∧
  mysql.books (serve (PUT_book, with_id "1" (json.DecodeOk messiah)) two_shelf).2 !! 1
    = Some (row_of messiah) ∧
  mysql.books (serve (PUT_book, with_id "1" (json.DecodeOk messiah)) two_shelf).2 !! 2
    = Some (row_of emma) ∧
  (serve (DELETE_book, with_id "1" (json.DecodeOk messiah)) two_shelf).1
    = json_reply StatusOK (json.of_message "Book deleted successfully") ∧
  mysql.books (serve (DELETE_book, with_id "1" (json.DecodeOk messiah)) two_shelf).2 !! 1
    = None ∧
  mysql.books (serve (DELETE_book, with_id "1" (json.DecodeOk messiah)) two_shelf).2 !! 2
    = Some (row_of emma).
Proof.
  assert (2 ≠ 1) as Hne by lia.
  pose proof (proj1 (other_rows_untouched (with_id "1" (json.DecodeOk messiah)) two_shelf)
                1 2 eq_refl Hne) as [Hput Hdel].
  split_and!.
  - by_run.
  - by_run.
  - rewrite Hput. reflexivity.
  - by_run.
  - by_run.
  - rewrite Hdel. reflexivity.
Defined.

End Claims.

(** ** Further properties of the handlers *)

Section Extras.

Import routes.

Local Ltac run :=
  vm_compute; first [ reflexivity | discriminate | intros; discriminate | lia ].

Lemma elem_of_listed db b :
  b ∈ listed db ↔ mysql.books db !! ID b = Some (row_of b).
Proof.
  unfold listed. change (map mysql.scan) with (fmap (M:=list) mysql.scan).
  rewrite list_elem_of_fmap. split.
  - intros ([k row] & -> & Hin%elem_of_select_all). simpl. by destruct row.
  - intros Hrow. exists (ID b, row_of b). split.
    + by destruct b.
    + by apply elem_of_select_all.
Qed.

(** *** Keys *)



(** X2: what a create does depends on the title, author and year of its
    body only: an id sent in the body and the path variables are ignored. *)
Theorem create_ignores_body_id r r' b b' db :
  Body r = json.DecodeOk b → Body r' = json.DecodeOk b' →
  Title b = Title b' → Author b = Author b' → Year b = Year b' →
  serve (POST_books, r) db = serve (POST_books, r') db.
Proof.
  intros Hb Hb' Ht Ha Hy.
  unfold serve, SetupRoutes, controllers.CreateBook, controllers.missing_fields.
  simpl. by rewrite Hb, Hb', Ht, Ha, Hy.
Qed.

Lemma create_ignores_body_id_witness :
  serve (POST_books, with_id "5" (json.DecodeOk
           {| ID := 77; Title := "Dune"; Author := "Herbert"; Year := 1965 |}))
    (shelf true)
  = serve (POST_books, no_id (json.DecodeOk dune)) (shelf true).
Proof.
  exact (create_ignores_body_id (with_id "5" (json.DecodeOk _)) (no_id (json.DecodeOk dune))
           _ dune (shelf true) eq_refl eq_refl eq_refl eq_refl eq_refl).
Defined.

(** X3: a create never changes or removes a row that is in the table: the
    only key whose content can differ afterwards is the counter's. *)
Theorem create_keeps_rows r db :
  (∀ k row, mysql.books db !! k = Some row →
     mysql.books (serve (POST_books, r) db).2 !! k = Some row) ∧
  (∀ k, k ≠ mysql.auto_increment db →
     mysql.books (serve (POST_books, r) db).2 !! k = mysql.books db !! k).
Proof.
  destruct (serve_CreateBook_cases r db)
    as [[-> _] | (b & row & _ & _ & _ & Hfree & _ & ->)]; [done|].
  simpl. split.
  - intros k row' Hk. rewrite lookup_insert_ne; [done|]. congruence.
  - intros k Hk. by rewrite lookup_insert_ne.
Qed.

Lemma create_keeps_rows_witness :
  mysql.books (serve (POST_books, no_id (json.DecodeOk late_dune)) (shelf false)).2 !! 1
  = Some (row_of dune).
Proof.
  exact (proj1 (create_keeps_rows (no_id (json.DecodeOk late_dune)) (shelf false))
           1 (row_of dune) eq_refl).
Defined.

(** *** How requests compose *)

Lemma status_error_reply c msg : status (error_reply c msg) = c.
Proof. reflexivity. Qed.

(** When an update is answered 200: the row existed, the body passed
    validation and its stored form went in. *)
Lemma serve_UpdateBook_ok r db :
  status (serve (PUT_book, r) db).1 = StatusOK →
  ∃ id b old new,
    strconv.Atoi (path_id r) = Some id ∧ Body r = json.DecodeOk b ∧ valid b ∧
    mysql.books db !! id = Some old ∧
    mysql.store_row (mysql.strict db) (Title b) (Author b) (Year b) = inr new ∧
    (mysql.clientFoundRows db = true ∨ old ≠ new) ∧
    serve (PUT_book, r) db
      = (json_reply StatusOK
           (json.of_Book {| ID := id; Title := Title b; Author := Author b;
                            Year := Year b |}),
         mysql.with_table db (<[id := new]> (mysql.books db)) (mysql.auto_increment db)).
Proof.
  unfold serve, SetupRoutes, controllers.UpdateBook, mysql.update. simpl.
  destruct (strconv.Atoi (path_id r)) as [id|] eqn:Hid; [|by intros [=]].
  destruct (Body r) as [msg|b] eqn:Hb; [by intros [=]|].
  destruct (controllers.missing_fields b) eqn:Hm; [by intros [=]|].
  destruct (mysql.books db !! id) as [old|] eqn:Hold; [|by intros [=]].
  destruct (mysql.store_row _ _ _ _) as [e|new] eqn:Hnew; [by intros [=]|].
  simpl. destruct (mysql.clientFoundRows db) eqn:Hcfr; simpl.
  - intros _. exists id, b, old, new. apply missing_fields_false in Hm.
    split_and!; auto.
  - case_bool_decide as Hsame; simpl; [by intros [=]|].
    intros _. exists id, b, old, new. apply missing_fields_false in Hm.
    split_and!; auto.
Qed.

(** X4: after an update that was answered 200 with a body that fits the
    columns, a get-by-id of the same id, under any spelling, is answered
    with the very reply of the update and leaves the store as the update
    left it. *)
Theorem update_then_get r id b db s body :
  strconv.Atoi (path_id r) = Some id → Body r = json.DecodeOk b → fits b →
  status (serve (PUT_book, r) db).1 = StatusOK →
  strconv.Atoi s = Some id →
  serve (GET_book, with_id s body) (serve (PUT_book, r) db).2
    = serve (PUT_book, r) db.
Proof.
  intros Hid Hb Hf Hok Hs.
  destruct (serve_UpdateBook_ok r db Hok)
    as (id' & b' & old & new & Hid' & Hb' & _ & _ & Hnew & _ & Hput).
  assert (id' = id) as -> by congruence. assert (b' = b) as -> by congruence.
  rewrite (store_row_fits _ b Hf) in Hnew. injection Hnew as <-.
  rewrite Hput, serve_GetBook, path_id_with_id, Hs. simpl.
  by rewrite lookup_insert_eq.
Qed.

Lemma update_then_get_witness :
  serve (GET_book, with_id "+1" no_body)
    (serve (PUT_book, with_id "1" (json.DecodeOk
              {| ID := 0; Title := "Dune"; Author := "Frank Herbert"; Year := 1965 |}))
       (shelf true)).2
  = serve (PUT_book, with_id "1" (json.DecodeOk
              {| ID := 0; Title := "Dune"; Author := "Frank Herbert"; Year := 1965 |}))
      (shelf true).
Proof.
  apply (update_then_get _ 1 {| ID := 0; Title := "Dune"; Author := "Frank Herbert";
                                Year := 1965 |}).
  - reflexivity.
  - reflexivity.
  - unfold fits. split_and!; run.
  - reflexivity.
  - reflexivity.
Defined.

(** X5: after a delete with a valid integer path id, whether it was
    answered 200 or 404, a get-by-id of that id is answered 404, and the
    list holds exactly the books listed before whose id is another. *)
Theorem delete_then_get r id db s body :
  strconv.Atoi (path_id r) = Some id → strconv.Atoi s = Some id →
  serve (GET_book, with_id s body) (serve (DELETE_book, r) db).2
    = (error_reply StatusNotFound "Book not found", (serve (DELETE_book, r) db).2) ∧
  serve (GET_books, with_id s body) (serve (DELETE_book, r) db).2
    = (json_reply StatusOK
         (json.Array (map json.of_Book (listed (serve (DELETE_book, r) db).2))),
       (serve (DELETE_book, r) db).2) ∧
  ∀ b, b ∈ listed (serve (DELETE_book, r) db).2 ↔ b ∈ listed db ∧ ID b ≠ id.
Proof.
  intros Hid Hs.
  assert (∀ k, mysql.books (serve (DELETE_book, r) db).2 !! k
               = if decide (k = id) then None else mysql.books db !! k) as Hlook.
  { intros k. rewrite serve_DeleteBook, Hid.
    destruct (mysql.books db !! id) eqn:Hrow; simpl.
    - rewrite lookup_delete. by repeat case_decide.
    - case_decide; congruence. }
  split_and!.
  - rewrite serve_GetBook, path_id_with_id, Hs, Hlook. by case_decide.
  - apply serve_GetBooks.
  - intros b. rewrite !elem_of_listed, Hlook.
    case_decide; (split; [done | by intros [? ?]]) || (split; [by split | by intros [? _]]).
Qed.

Lemma delete_then_get_witness :
  serve (GET_book, with_id "1" no_body) (serve (DELETE_book, with_id "01" no_body) (shelf true)).2
  = (error_reply StatusNotFound "Book not found",
     (serve (DELETE_book, with_id "01" no_body) (shelf true)).2).
Proof.
  exact (proj1 (delete_then_get (with_id "01" no_body) 1 (shelf true) "1" no_body
                  eq_refl eq_refl)).
Defined.

(** X6: over a connection that counts changed rows (no [clientFoundRows],
    as [InitDB] opens it), an update that was answered 200, sent again
    right away, is answered 404 "Book not found" and changes nothing. *)
Theorem update_repeated r db :
  mysql.clientFoundRows db = false →
  status (serve (PUT_book, r) db).1 = StatusOK →
  serve (PUT_book, r) (serve (PUT_book, r) db).2
    = (error_reply StatusNotFound "Book not found", (serve (PUT_book, r) db).2).
Proof.
  intros Hcfr Hok.
  destruct (serve_UpdateBook_ok r db Hok)
    as (id & b & old & new & Hid & Hb & Hv%missing_fields_false & _ & Hnew & _ & ->).
  unfold serve, SetupRoutes, controllers.UpdateBook, mysql.update. simpl.
  rewrite Hid, Hb, Hv, lookup_insert_eq, Hnew, Hcfr.
  rewrite bool_decide_eq_true_2 by done. simpl.
  unfold mysql.with_table. simpl. by rewrite insert_insert_eq.
Qed.

Lemma update_repeated_witness :
  serve (PUT_book, with_id "1" (json.DecodeOk late_dune))
    (serve (PUT_book, with_id "1" (json.DecodeOk late_dune)) (shelf false)).2
  = (error_reply StatusNotFound "Book not found",
     (serve (PUT_book, with_id "1" (json.DecodeOk late_dune)) (shelf false)).2).
Proof.
  exact (update_repeated (with_id "1" (json.DecodeOk late_dune)) (shelf false)
           eq_refl eq_refl).
Defined.

(** When a create is answered 201. *)
Lemma serve_CreateBook_created r db :
  status (serve (POST_books, r) db).1 = StatusCreated →
  ∃ b row,
    Body r = json.DecodeOk b ∧ valid b ∧
    mysql.store_row (mysql.strict db) (Title b) (Author b) (Year b) = inr row ∧
    mysql.books db !! mysql.auto_increment db = None ∧
    serve (POST_books, r) db
      = (json_reply StatusCreated
           (json.of_Book {| ID := mysql.auto_increment db; Title := Title b;
                            Author := Author b; Year := Year b |}),
         mysql.with_table db (<[mysql.auto_increment db := row]> (mysql.books db))
           (mysql.auto_increment db + 1)).
Proof.
  unfold serve, SetupRoutes, controllers.CreateBook, mysql.insert. simpl.
  destruct (Body r) as [msg|b] eqn:Hb; [by intros [=]|].
  destruct (controllers.missing_fields b) eqn:Hm; [by intros [=]|].
  destruct (mysql.store_row _ _ _ _) as [e|row] eqn:Hrow; [by intros [=]|].
  destruct (_ <? _) eqn:Hmax; [by intros [=]|].
  destruct (mysql.books db !! _) eqn:Hfree; [by intros [=]|].
  intros _. exists b, row. apply missing_fields_false in Hm. done.
Qed.

(** X7: after a create that was answered 201 with a body that fits the
    columns, the list holds the books listed before and the created book,
    with the id the 201 named and the submitted title, author and year, and
    nothing else. *)
Theorem list_after_create r b db :
  Body r = json.DecodeOk b → fits b →
  status (serve (POST_books, r) db).1 = StatusCreated →
  ∃ id,
    created_id (serve (POST_books, r) db).1 = Some id ∧
    ∀ b', b' ∈ listed (serve (POST_books, r) db).2 ↔
          b' ∈ listed db ∨
          b' = {| ID := id; Title := Title b; Author := Author b; Year := Year b |}.
Proof.
  intros Hb Hf Hok.
  destruct (serve_CreateBook_created r db Hok)
    as (b0 & row & Hb0 & _ & Hrow & Hfree & ->).
  assert (b0 = b) as -> by congruence.
  rewrite (store_row_fits _ b Hf) in Hrow. injection Hrow as <-.
  exists (mysql.auto_increment db). split; [reflexivity|].
  intros b'. rewrite !elem_of_listed. simpl. rewrite lookup_insert.
  case_decide as Hkey.
  - split.
    + intros [= Hrow]. right. destruct b' as [i t a y].
      unfold row_of in Hrow. simpl in *. congruence.
    + intros [Hold | ->]; [congruence|done].
  - split; [by left|]. intros [Hold | ->]; [done|]. by simpl in Hkey.
Qed.

Lemma list_after_create_witness :
  ∃ id,
    created_id (serve (POST_books, no_id (json.DecodeOk dune)) (shelf true)).1 = Some id ∧
    ∀ b', b' ∈ listed (serve (POST_books, no_id (json.DecodeOk dune)) (shelf true)).2 ↔
          b' ∈ listed (shelf true) ∨
          b' = {| ID := id; Title := "Dune"; Author := "Herbert"; Year := 1965 |}.
Proof.
  apply (list_after_create (no_id (json.DecodeOk dune)) dune (shelf true)).
  - reflexivity.
  - unfold fits. split_and!; run.
  - reflexivity.
Defined.

(** X8: an update never changes which ids exist, whatever the request: no
    row is created and none is removed, and the key counter stays. *)
Theorem update_keeps_ids r db :
  dom (mysql.books (serve (PUT_book, r) db).2) = dom (mysql.books db) ∧
  mysql.auto_increment (serve (PUT_book, r) db).2 = mysql.auto_increment db.
Proof.
  destruct (serve_UpdateBook_cases r db)
    as [-> | (id & b & old & row & _ & _ & _ & Hold & _ & ->)]; [done|].
  simpl. split; [|done]. apply dom_insert_lookup_L. by eexists.
Qed.

(** *** Replies *)

(** X9: every request is answered with exactly one payload, of one of two
    shapes: a JSON value with content type application/json and status 200
    (201 for a create, which is never answered 200), or a line of plain
    text with status 400, 404 or 500; a list is never answered 400 or 404
    and a create never 404. *)
Theorem reply_shape route r db :
  (∃ v, (serve (route, r) db).1 = json_reply StatusOK v ∧ route ≠ POST_books) ∨
  (∃ v, (serve (route, r) db).1 = json_reply StatusCreated v ∧ route = POST_books) ∨
  (∃ msg, (serve (route, r) db).1 = error_reply StatusBadRequest msg ∧
          route ≠ GET_books) ∨
  (∃ msg, (serve (route, r) db).1 = error_reply StatusNotFound msg ∧
          route ≠ GET_books ∧ route ≠ POST_books) ∨
  (∃ msg, (serve (route, r) db).1 = error_reply StatusInternalServerError msg).
Proof.
  destruct route.
  - left. rewrite serve_GetBooks. eauto.
  - rewrite serve_GetBook.
    destruct (strconv.Atoi _); [destruct (mysql.books db !! _)|]; simpl.
    + left. eauto.
    + do 3 right. left. eauto.
    + do 2 right. left. eauto.
  - unfold serve, SetupRoutes, controllers.CreateBook. simpl.
    destruct (Body r); [do 2 right; left; by eexists|].
    destruct (controllers.missing_fields _); [do 2 right; left; by eexists|].
    destruct (mysql.insert _ _ _ _) as [e|[res db']].
    + do 4 right. by eexists.
    + right. left. by eexists.
  - unfold serve, SetupRoutes, controllers.UpdateBook. simpl.
    destruct (strconv.Atoi _); [|do 2 right; left; by eexists].
    destruct (Body r); [do 2 right; left; by eexists|].
    destruct (controllers.missing_fields _); [do 2 right; left; by eexists|].
    destruct (mysql.update _ _ _ _ _) as [e|[res db']].
    + do 4 right. by eexists.
    + destruct (_ =? 0).
      * do 3 right. left. by eexists.
      * left. by eexists.
  - rewrite serve_DeleteBook.
    destruct (strconv.Atoi _); [destruct (mysql.books db !! _)|]; simpl.
    + left. eauto.
    + do 3 right. left. eauto.
    + do 2 right. left. eauto.
Qed.

(** X10: a request that is not answered 200 or 201 leaves the store exactly
    as it was. *)
Theorem failed_request_changes_nothing c db :
  status (serve c db).1 ≠ StatusOK → status (serve c db).1 ≠ StatusCreated →
  (serve c db).2 = db.
Proof.
  intros Hok Hcreated. destruct c as [[] r].
  - apply serve_GetBooks_state.
  - apply serve_GetBook_state.
  - revert Hcreated. unfold serve, SetupRoutes, controllers.CreateBook. simpl.
    destruct (Body r) as [msg|b]; [done|].
    destruct (controllers.missing_fields b); [done|].
    destruct (mysql.insert _ _ _ _) as [e|[res db']]; [done|].
    simpl. intros Hcreated. by exfalso.
  - revert Hok. unfold serve, SetupRoutes, controllers.UpdateBook, mysql.update.
    simpl.
    destruct (strconv.Atoi _) as [id|]; [|done].
    destruct (Body r) as [msg|b]; [done|].
    destruct (controllers.missing_fields b); [done|].
    destruct (mysql.books db !! id) as [old|] eqn:Hold; [|done].
    destruct (mysql.store_row _ _ _ _) as [e|new]; [done|]. simpl.
    destruct (mysql.clientFoundRows db); simpl; [done|].
    case_bool_decide as Hsame; simpl; [|done]. subst new. intros _.
    destruct db as [m cfr t n]. unfold mysql.with_table. simpl in *.
    by rewrite insert_id.
  - revert Hok. rewrite serve_DeleteBook.
    destruct (strconv.Atoi _); [destruct (mysql.books db !! _)|]; done.
Qed.

Lemma failed_request_changes_nothing_witness :
  (serve (POST_books, no_id (json.DecodeOk long_dune)) (shelf true)).2 = shelf true.
Proof.
  apply (failed_request_changes_nothing
           (POST_books, no_id (json.DecodeOk long_dune)) (shelf true)); run.
Defined.

(** *** The columns' bounds *)

Lemma char_length_take n s : (mysql.char_length (mysql.char_take n s) ≤ n)%nat.
Proof.
  revert n. induction s as [|c s IH]; intros n; simpl; [lia|].
  destruct (mysql.is_continuation c) eqn:Hc; simpl.
  - rewrite Hc. apply IH.
  - destruct n as [|n]; simpl; [lia|]. rewrite Hc. specialize (IH n). lia.
Qed.

Lemma char_take_fits n s :
  (mysql.char_length s ≤ n)%nat → mysql.char_take n s = s.
Proof.
  revert n. induction s as [|c s IH]; intros n; simpl; [done|].
  destruct (mysql.is_continuation c).
  - intros Hlen. by rewrite IH.
  - destruct n as [|n]; [lia|]. intros Hlen. rewrite IH; [done|lia].
Qed.

Lemma store_row_row_fits m t a y row :
  mysql.store_row m t a y = inr row → row_fits row.
Proof.
  assert (∀ c s s', mysql.store_varchar m c s = inr s' →
            (mysql.char_length s' ≤ mysql.VARCHAR_LEN)%nat) as Hvarchar.
  { intros c s s'. unfold mysql.store_varchar.
    destruct (_ <=? _)%nat eqn:Hlen.
    - intros [= <-]. by apply Nat.leb_le.
    - destruct (_ && _); [done|]. intros [= <-]. apply char_length_take. }
  unfold mysql.store_row.
  destruct (mysql.store_varchar m mysql.col_title t) as [|t'] eqn:Et; [done|].
  destruct (mysql.store_varchar m mysql.col_author a) as [|a'] eqn:Ea; [done|].
  destruct (mysql.store_int m mysql.col_year y) as [|y'] eqn:Ey; [done|].
  intros [= <-]. unfold row_fits. simpl. split_and!.
  - by eapply Hvarchar.
  - by eapply Hvarchar.
  - revert Ey. unfold mysql.store_int. destruct (_ && _) eqn:Hrange.
    + intros [= <-]. apply andb_prop in Hrange as [?%Z.leb_le ?%Z.leb_le]. lia.
    + destruct m; [done|]. intros [= <-].
      unfold mysql.INT_MIN, mysql.INT_MAX. lia.
  - revert Ey. unfold mysql.store_int. destruct (_ && _) eqn:Hrange.
    + intros [= <-]. apply andb_prop in Hrange as [?%Z.leb_le ?%Z.leb_le]. lia.
    + destruct m; [done|]. intros [= <-].
      unfold mysql.INT_MIN, mysql.INT_MAX. lia.
Qed.

Lemma rows_fit_serve c db : rows_fit db → rows_fit (serve c db).2.
Proof.
  intros Hok. destruct c as [[] r].
  - by rewrite serve_GetBooks_state.
  - by rewrite serve_GetBook_state.
  - destruct (serve_CreateBook_cases r db)
      as [[-> _] | (b & row & _ & _ & Hrow & _ & _ & ->)]; [done|].
    intros k row'. simpl. rewrite lookup_insert. case_decide.
    + intros [= <-]. by eapply store_row_row_fits.
    + apply Hok.
  - destruct (serve_UpdateBook_cases r db)
      as [-> | (id & b & old & row & _ & _ & _ & _ & Hrow & ->)]; [done|].
    intros k row'. simpl. rewrite lookup_insert. case_decide.
    + intros [= <-]. by eapply store_row_row_fits.
    + apply Hok.
  - destruct (serve_DeleteBook_state r db) as [-> | (id & _ & ->)]; [done|].
    intros k row'. simpl. rewrite lookup_delete. case_decide; [done|]. apply Hok.
Qed.

(** X11: every row stays within the bounds the schema of [InitDB] declares
    (title and author of at most 255 characters, year within the signed
    32-bit range) along any sequence of requests, in either SQL mode, and so
    does every row of a table that started empty. *)
Theorem rows_fit_kept cs db m :
  (rows_fit db → rows_fit (serve_all cs db)) ∧
  rows_fit (serve_all cs (database.InitDB m)).
Proof.
  assert (∀ db', rows_fit db' → rows_fit (serve_all cs db')) as Hall.
  { induction cs as [|c cs IH]; intros db' Hok; [done|].
    simpl. apply IH. by apply rows_fit_serve. }
  split; [apply Hall|]. apply Hall. intros id row. simpl. by rewrite lookup_empty.
Qed.

Lemma rows_fit_kept_witness :
  rows_fit
    (serve_all [(POST_books, no_id (json.DecodeOk long_dune));
                (PUT_book, with_id "1" (json.DecodeOk late_dune))] (shelf false)).
Proof.
  refine (proj1 (rows_fit_kept _ (shelf false) false) _).
  intros id row. unfold shelf. simpl. rewrite lookup_singleton.
  case_decide; [|done]. intros [= <-]. unfold row_fits. split_and!; run.
Defined.

(** X12: on a server in strict SQL mode, a create whose body passes
    validation but has a year outside the signed 32-bit range is answered
    500 and leaves the store as it was, and so is an update of an existing
    row with such a body. *)
Theorem strict_rejects_year r b db :
  mysql.strict db = true → Body r = json.DecodeOk b → valid b →
  ¬ (mysql.INT_MIN ≤ Year b ≤ mysql.INT_MAX) →
  (status (serve (POST_books, r) db).1 = StatusInternalServerError ∧
   (serve (POST_books, r) db).2 = db) ∧
  (∀ id, strconv.Atoi (path_id r) = Some id → is_Some (mysql.books db !! id) →
     status (serve (PUT_book, r) db).1 = StatusInternalServerError ∧
     (serve (PUT_book, r) db).2 = db).
Proof.
  intros Hstrict Hb Hv%missing_fields_false Hyear.
  assert (∃ e, mysql.store_row true (Title b) (Author b) (Year b) = inl e) as [e He].
  { unfold mysql.store_row.
    destruct (mysql.store_varchar _ _ (Title b)); [by eexists|].
    destruct (mysql.store_varchar _ _ (Author b)); [by eexists|].
    unfold mysql.store_int. destruct (_ && _) eqn:Hrange; [|by eexists].
    apply andb_prop in Hrange as [?%Z.leb_le ?%Z.leb_le]. lia. }
  split.
  - unfold serve, SetupRoutes, controllers.CreateBook, mysql.insert. simpl.
    by rewrite Hb, Hv, Hstrict, He.
  - intros id Hid [old Hold].
    unfold serve, SetupRoutes, controllers.UpdateBook, mysql.update. simpl.
    by rewrite Hid, Hb, Hv, Hold, Hstrict, He.
Qed.

Lemma strict_rejects_year_witness :
  status (serve (PUT_book, with_id "1" (json.DecodeOk late_dune)) (shelf true)).1
    = StatusInternalServerError ∧
  (serve (PUT_book, with_id "1" (json.DecodeOk late_dune)) (shelf true)).2 = shelf true.
Proof.
  assert (valid late_dune) as Hv by (unfold valid; split_and!; run).
  assert (¬ (mysql.INT_MIN ≤ Year late_dune ≤ mysql.INT_MAX)) as Hy.
  { intros [_ H]. vm_compute in H. by apply H. }
  exact (proj2 (strict_rejects_year (with_id "1" (json.DecodeOk late_dune)) late_dune
                  (shelf true) eq_refl eq_refl Hv Hy)
           1 eq_refl (ex_intro _ (row_of dune) eq_refl)).
Defined.

(** X13: on a server that is not in strict SQL mode no body that passes
    validation is turned down by the table: as long as the key counter is
    within [INT] and above the keys in use, the create is answered 201 and
    what is stored is the first 255 characters of the submitted title and
    of the submitted author (all of them when there are no more) and the
    year clipped to [INT]. *)
Theorem lenient_create_accepts r b db :
  mysql.strict db = false → Body r = json.DecodeOk b → valid b →
  counter_above db → mysql.auto_increment db ≤ mysql.INT_MAX →
  status (serve (POST_books, r) db).1 = StatusCreated ∧
  ∃ row,
    mysql.books (serve (POST_books, r) db).2 !! mysql.auto_increment db = Some row ∧
    mysql.title row = mysql.char_take mysql.VARCHAR_LEN (Title b) ∧
    mysql.author row = mysql.char_take mysql.VARCHAR_LEN (Author b) ∧
    mysql.year row = Z.max mysql.INT_MIN (Z.min mysql.INT_MAX (Year b)).
Proof.
  intros Hstrict Hb Hv Habove Hmax.
  pose proof (counter_above_free db Habove) as Hfree.
  assert (∀ c s, mysql.store_varchar false c s
                 = inr (mysql.char_take mysql.VARCHAR_LEN s)) as Hvarchar.
  { intros c s. unfold mysql.store_varchar.
    destruct (_ <=? _)%nat eqn:Hlen; [|done].
    apply Nat.leb_le in Hlen. by rewrite char_take_fits. }
  pose proof (Hvarchar mysql.col_title (Title b)) as Ht.
  pose proof (Hvarchar mysql.col_author (Author b)) as Ha.
  assert (mysql.store_int false mysql.col_year (Year b)
          = inr (Z.max mysql.INT_MIN (Z.min mysql.INT_MAX (Year b)))) as Hy.
  { unfold mysql.store_int. destruct (_ && _) eqn:Hrange; [|done].
    apply andb_prop in Hrange as [?%Z.leb_le ?%Z.leb_le]. f_equal. lia. }
  assert (mysql.store_row (mysql.strict db) (Title b) (Author b) (Year b)
          = inr {| mysql.title := mysql.char_take mysql.VARCHAR_LEN (Title b);
                   mysql.author := mysql.char_take mysql.VARCHAR_LEN (Author b);
                   mysql.year := Z.max mysql.INT_MIN (Z.min mysql.INT_MAX (Year b)) |})
    as Hrow by (rewrite Hstrict; unfold mysql.store_row; by rewrite Ht, Ha, Hy).
  rewrite (serve_CreateBook_stored r b _ db Hb Hv Hrow Hmax Hfree).
  split; [reflexivity|]. eexists. simpl. rewrite lookup_insert_eq. done.
Qed.

Lemma lenient_create_accepts_witness :
  status (serve (POST_books, no_id (json.DecodeOk long_dune)) (shelf false)).1
    = StatusCreated.
Proof.
  refine (proj1 (lenient_create_accepts (no_id (json.DecodeOk long_dune)) long_dune
                   (shelf false) eq_refl eq_refl _ _ _)).
  - unfold valid. split_and!; run.
  - intros id. unfold shelf. simpl. rewrite lookup_singleton.
    case_decide; [subst; lia | by intros [? [=]]].
  - run.
Defined.

(** *** Requests *)

(** A handler reads its request through [Atoi] of the path identifier and
    through the decoded body only. *)
Lemma serve_same_request route r r' db :
  strconv.Atoi (path_id r) = strconv.Atoi (path_id r') → Body r = Body r' →
  serve (route, r) db = serve (route, r') db.
Proof.
  intros Hid Hbody. destruct route.
  - reflexivity.
  - by rewrite !serve_GetBook, Hid.
  - unfold serve, SetupRoutes, controllers.CreateBook. simpl. by rewrite Hbody.
  - unfold serve, SetupRoutes, controllers.UpdateBook. simpl. by rewrite Hid, Hbody.
  - by rewrite !serve_DeleteBook, Hid.
Qed.

(** X14: leading zeros and a leading plus sign do not change the id a path
    identifier denotes: with a string of digits [s], the paths [0s] and
    [+s] are answered like the path [s] on every route. *)
Theorem id_spelling s k v route body db :
  strconv.digit_string s k v →
  strconv.Atoi (String "0" s) = strconv.Atoi s ∧
  strconv.Atoi (String "+" s) = strconv.Atoi s ∧
  serve (route, with_id (String "0" s) body) db = serve (route, with_id s body) db ∧
  serve (route, with_id (String "+" s) body) db = serve (route, with_id s body) db.
Proof.
  intros Hs.
  destruct (digit_string_head _ _ _ Hs) as (c & d & s' & -> & Hc).
  destruct (digit_char_not_sign _ _ Hc) as [E1 E2].
  assert (strconv.Atoi (String "0" (String c s')) = strconv.Atoi (String c s')) as Hzero.
  { unfold strconv.Atoi at 2. rewrite E1, E2. reflexivity. }
  assert (strconv.Atoi (String "+" (String c s')) = strconv.Atoi (String c s')) as Hplus.
  { unfold strconv.Atoi at 2. rewrite E1, E2. reflexivity. }
  split_and!; [done | done | |].
  - apply serve_same_request; [|done]. by rewrite !path_id_with_id.
  - apply serve_same_request; [|done]. by rewrite !path_id_with_id.
Qed.

Lemma id_spelling_witness :
  serve (GET_book, with_id "01" no_body) (shelf true)
  = serve (GET_book, with_id "1" no_body) (shelf true).
Proof.
  refine (proj1 (proj2 (proj2 (id_spelling "1" 1 1 GET_book no_body (shelf true) _)))).
  apply strconv.digit_string_one. by apply (strconv.digit_char_intro "1" 1).
Defined.

(** X15: which requests are answered 400: a list never; a get-by-id and a
    delete exactly when the path identifier is not an integer [Atoi]
    accepts; a create exactly when the body does not decode or has an
    empty title, an empty author or the year zero; an update exactly when
    one or the other is the case. *)
Theorem bad_request_iff r db :
  status (serve (GET_books, r) db).1 ≠ StatusBadRequest ∧
  (status (serve (GET_book, r) db).1 = StatusBadRequest
     ↔ strconv.Atoi (path_id r) = None) ∧
  (status (serve (DELETE_book, r) db).1 = StatusBadRequest
     ↔ strconv.Atoi (path_id r) = None) ∧
  (status (serve (POST_books, r) db).1 = StatusBadRequest
     ↔ rejected_body (Body r)) ∧
  (status (serve (PUT_book, r) db).1 = StatusBadRequest
     ↔ strconv.Atoi (path_id r) = None ∨ rejected_body (Body r)).
Proof.
  assert (∀ b, ¬ rejected_body (json.DecodeOk b) ↔ controllers.missing_fields b = false)
    as Hrej.
  { intros b. rewrite <- not_true_iff_false, missing_fields_true. unfold rejected_body.
    split.
    - intros Hn Hm. apply Hn. right. by exists b.
    - intros Hn [[msg [=]] | (b' & [= <-] & Hm)]. by apply Hn. }
  split_and!.
  - by rewrite serve_GetBooks.
  - rewrite serve_GetBook.
    destruct (strconv.Atoi _); [destruct (mysql.books db !! _)|]; done.
  - rewrite serve_DeleteBook.
    destruct (strconv.Atoi _); [destruct (mysql.books db !! _)|]; done.
  - unfold serve, SetupRoutes, controllers.CreateBook. simpl.
    destruct (Body r) as [msg|b]; [split; [intros _; left; by exists msg | done]|].
    destruct (controllers.missing_fields b) eqn:Hm.
    + split; [intros _|done]. right. exists b. by apply missing_fields_true in Hm.
    + apply Hrej in Hm.
      destruct (mysql.insert _ _ _ _) as [e|[res db']]; by split.
  - unfold serve, SetupRoutes, controllers.UpdateBook. simpl.
    destruct (strconv.Atoi _) as [id|]; [|split; [by left|done]].
    destruct (Body r) as [msg|b]; [split; [intros _; right; left; by exists msg | done]|].
    destruct (controllers.missing_fields b) eqn:Hm.
    + split; [intros _|done]. right. right. exists b. by apply missing_fields_true in Hm.
    + apply Hrej in Hm.
      destruct (mysql.update _ _ _ _ _) as [e|[res db']]; simpl.
      * split; [done|]. by intros [[=]|?].
      * destruct (_ =? 0); (split; [done|]); by intros [[=]|?].
Qed.

(** X16: a delete is answered 200 exactly when its path identifier is an
    integer under which a row exists; the reply is then the confirmation
    message and the store is the one before without that row. *)
Theorem delete_ok_iff r db :
  (status (serve (DELETE_book, r) db).1 = StatusOK
     ↔ ∃ id, strconv.Atoi (path_id r) = Some id ∧ is_Some (mysql.books db !! id)) ∧
  (∀ id, strconv.Atoi (path_id r) = Some id → is_Some (mysql.books db !! id) →
     serve (DELETE_book, r) db
       = (json_reply StatusOK (json.of_message "Book deleted successfully"),
          mysql.with_table db (delete id (mysql.books db)) (mysql.auto_increment db)) ∧
     size (mysql.books (serve (DELETE_book, r) db).2) = Nat.pred (size (mysql.books db))).
Proof.
  rewrite serve_DeleteBook. split.
  - destruct (strconv.Atoi _) as [id|]; [destruct (mysql.books db !! id) eqn:Hrow|].
    + split; [intros _|done]. exists id. split; [done|]. by eexists.
    + split; [done|]. intros (k & [= <-] & [row Hk]). congruence.
    + split; [done|]. by intros (k & [=] & _).
  - intros id -> [row Hrow]. rewrite Hrow. split; [done|]. simpl.
    apply map_size_delete_Some. by eexists.
Qed.

Lemma delete_ok_iff_witness :
  serve (DELETE_book, with_id "1" no_body) (shelf true)
    = (json_reply StatusOK (json.of_message "Book deleted successfully"),
       mysql.with_table (shelf true) (delete 1 (mysql.books (shelf true))) 2).
Proof.
  exact (proj1 (proj2 (delete_ok_iff (with_id "1" no_body) (shelf true)) 1 eq_refl
                  (ex_intro _ (row_of dune) eq_refl))).
Defined.

End Extras.

(** ** Sample runs *)

(** The sample table is what a create of [dune] leaves on a fresh database. *)
Example shelf_reached m :
  routes.serve (routes.POST_books, no_id (json.DecodeOk dune)) (database.InitDB m)
  = (json_reply StatusCreated
       (json.of_Book {| ID := 1; Title := "Dune"; Author := "Herbert"; Year := 1965 |}),
     shelf m).
Proof. destruct m; vm_compute; reflexivity. Qed.

(** The table with two books is what two creates leave, and a list returns
    its books by increasing id. *)
Example two_shelf_reached :
  routes.serve_all [(routes.POST_books, no_id (json.DecodeOk dune));
                    (routes.POST_books, no_id (json.DecodeOk emma))]
    (database.InitDB true)
  = two_shelf.
Proof. vm_compute. reflexivity. Qed.

Example two_shelf_listed :
  listed two_shelf
  = [ {| ID := 1; Title := "Dune"; Author := "Herbert"; Year := 1965 |};
      {| ID := 2; Title := "Emma"; Author := "Austen"; Year := 1815 |} ].
Proof. vm_compute. reflexivity. Qed.

Example duplicate_key_text :
  mysql.Error_text (mysql.ER_DUP_ENTRY 7)
  = "Error 1062 (23000): Duplicate entry '7' for key 'books.PRIMARY'"%string.
Proof. vm_compute. reflexivity. Qed.

Example letters_length : mysql.char_length (letters 256) = 256%nat.
Proof. vm_compute. reflexivity. Qed.

Example Atoi_zero : strconv.Atoi "0" = Some 0.
Proof. reflexivity. Qed.

Example Atoi_negative : strconv.Atoi "-3" = Some (-3).
Proof. reflexivity. Qed.

Example Atoi_leading : strconv.Atoi "+007" = Some 7.
Proof. reflexivity. Qed.

Example Atoi_letters : strconv.Atoi "abc" = None.
Proof. reflexivity. Qed.

Example Atoi_sign_only : strconv.Atoi "-" = None.
Proof. reflexivity. Qed.

Example Atoi_max : strconv.Atoi "9223372036854775807" = Some strconv.max_int.
Proof. reflexivity. Qed.

Example Atoi_too_big : strconv.Atoi "9223372036854775808" = None.
Proof. reflexivity. Qed.

Example Atoi_min : strconv.Atoi "-9223372036854775808" = Some strconv.min_int.
Proof. reflexivity. Qed.
